(** * invenio_oaiserver.percolator: percolation-based OAI set matching

    A shallow embedding of [invenio_oaiserver/percolator.py].  The module
    talks to three collaborators: the search engine (through
    [current_search_client]), the table of OAI sets ([OAISet.query]) and the
    process-wide cache [current_oaiserver.sets].  Their state is gathered
    in a [World] that the functions of the module thread through a state
    and exception monad; every request sent to a collaborator is also
    recorded, in order, in the [requests] of the world. *)

From Stdlib Require Import ZArith.
From stdpp Require Import gmap strings list fin_maps.

Open Scope string_scope.

(** ** JSON payloads *)

(** Documents, stored queries and index mappings are JSON values; a JSON
    object is an association list, as a Python [dict] keeps its items in
    order. *)
#[local] Unset Elimination Schemes.
Inductive json : Type :=
| JNull
| JBool (b : bool)
| JNum (n : Z)
| JStr (s : string)
| JArr (items : list json)
| JObj (items : list (string * json)).
#[local] Set Elimination Schemes.

Abbreviation dict := (list (string * json)).

(** [d.get(key)] *)
Fixpoint dict_get (key : string) (d : dict) : option json :=
  match d with
  | [] => None
  | (k, v) :: d' => if String.eqb k key then Some v else dict_get key d'
  end.

(** [d[key] = v] *)
Fixpoint dict_set (key : string) (v : json) (d : dict) : dict :=
  match d with
  | [] => [(key, v)]
  | (k, v') :: d' =>
      if String.eqb k key then (k, v) :: d' else (k, v') :: dict_set key v d'
  end.

(** [d.update(other)] *)
Definition dict_update (d other : dict) : dict :=
  fold_left (fun acc kv => dict_set kv.1 kv.2 acc) other d.

Definition jget (key : string) (j : json) : option json :=
  match j with
  | JObj d => dict_get key d
  | _ => None
  end.

(** ** Strings *)

(** [s[n:]] *)
Fixpoint string_drop (n : nat) (s : string) : string :=
  match n, s with
  | O, _ => s
  | S n', String _ s' => string_drop n' s'
  | S _, EmptyString => EmptyString
  end.

(** [s.startswith(p)] *)
Definition startswith (s p : string) : bool := String.prefix p s.

(** ** The world outside the module *)

(** Modelled from the spec: the [OAISet] model of [invenio_oaiserver.models]
    is not among the sources.  A set is identified by its name, the [spec],
    and has an optional search pattern, a string; the module reads these
    two columns of a row and nothing else. *)
Record OAISet : Type := { spec : string; search_pattern : option string }.

(** An index of the search engine: the field properties of its mapping and
    its documents by id. *)
Record index_state : Type := {
  ix_properties : dict;
  ix_docs : gmap string json
}.

(** A hit of a search or percolate response; the module reads only
    [hit['_id']]. *)
Record hit : Type := { _id : string; _source : json }.

(** One clause of a search query, as [create_percolate_query] and
    [_percolate_query] build them. *)
Inductive query_clause : Type :=
| Percolate_documents (documents : list json)
    (* {"percolate": {"field": "query", "documents": documents}} *)
| Percolate_stored (index id name : string)
    (* {"percolate": {"field": "query", "index": .., "id": .., "name": ..}} *)
| Percolate_document (document_type : option string) (document : json)
    (* {"percolate": {"field": "query", "document_type": .., "document": ..}} *)
| Ids (values : list string).
    (* {"ids": {"values": values}} *)

(** The body of a search request. *)
Inductive search_body : Type :=
| Empty_body                                  (* {} *)
| Query (q : query_clause)                    (* {"query": q} *)
| Bool_must (queries : list query_clause).    (* {"query": {"bool": {"must": queries}}} *)

(** Requests sent to the collaborators. *)
Inductive request : Type :=
| Indices_exists (index : string)
| Indices_create (index : string) (body : json)
| Indices_put_mapping (index : string) (doc_type : option string) (body : json)
| Index_document (index : string) (doc_type : option string) (id : string) (body : json)
| Delete_document (index : string) (doc_type : option string) (id : string)
| Percolate (index : string) (doc_type : option string) (document : json)
| Search_request (index : string) (body : search_body) (size : option nat)
| OAISet_query (only_pattern_free : bool).

Record World : Type := {
  indices : gmap string index_state;       (* the search engine *)
  oaisets : list OAISet;                   (* the OAISet table *)
  current_oaiserver_sets : option (list string);   (* current_oaiserver.sets *)
  requests : list request                  (* requests sent so far, oldest first *)
}.

Definition with_indices (f : gmap string index_state -> gmap string index_state)
    (w : World) : World :=
  {| indices := f (indices w); oaisets := oaisets w;
     current_oaiserver_sets := current_oaiserver_sets w;
     requests := requests w |}.

(** ** State and exception monad *)

Inductive exn : Type :=
| KeyError (key : string)
| TypeError
| AttributeError
| NotFoundError       (* HTTP 404 *)
| RequestError.       (* HTTP 400 *)

Inductive outcome (A : Type) : Type :=
| Done (a : A) (w : World)
| Raised (e : exn) (w : World).
Arguments Done {A} a w.
Arguments Raised {A} e w.

Definition M (A : Type) : Type := World -> outcome A.

Definition ret {A} (a : A) : M A := fun w => Done a w.

Definition bind {A B} (m : M A) (k : A -> M B) : M B :=
  fun w => match m w with
           | Done a w' => k a w'
           | Raised e w' => Raised e w'
           end.

Definition raise {A} (e : exn) : M A := fun w => Raised e w.

Definition get_world : M World := fun w => Done w w.

Definition modify (f : World -> World) : M unit := fun w => Done tt (f w).

Notation "'let!' x ':=' m 'in' k" := (bind m (fun x => k))
  (at level 10, x pattern, m at level 100, k at level 200).
Notation "m '>>>' k" := (bind m (fun _ => k))
  (at level 90, right associativity).

(** The world an outcome ends in. *)
Definition world_of {A} (o : outcome A) : World :=
  match o with Done _ w => w | Raised _ w => w end.

(** [for x in l: body(x)] *)
Fixpoint for_each {A} (body : A -> M unit) (l : list A) : M unit :=
  match l with
  | [] => ret tt
  | x :: l' => body x >>> for_each body l'
  end.

(** Run a pure computation that may raise. *)
Definition lift {A} (r : exn + A) : M A :=
  match r with
  | inl e => raise e
  | inr a => ret a
  end.

Definition log (r : request) (w : World) : World :=
  {| indices := indices w; oaisets := oaisets w;
     current_oaiserver_sets := current_oaiserver_sets w;
     requests := requests w ++ [r] |}.

Definition send (r : request) : M unit := modify (log r).

(** ** Collaborators that are configuration or pure functions *)

Class Env : Type := {
  (** [ES_VERSION[0]], the major version of the search engine client *)
  ES_VERSION_0 : Z;
  (** [current_search.mappings]: index name to path of its mapping file *)
  mappings : list (string * string);
  (** [json.load(open(path))] for a mapping file *)
  mapping_file : string -> json;
  (** [schema_to_index(path)]: the index and document type of a mapping *)
  schema_to_index : string -> option string * option string;
  (** [query_string_parser(search_pattern).to_dict()] *)
  query_string_parser : option string -> json;
  (** the engine's percolation: does a stored query match a document? *)
  percolates : json -> json -> bool;
  (** [RecordIndexer().record_to_index(record)] *)
  record_to_index : json -> string * string;
  (** [record.dumps()] *)
  record_dumps : json -> json;
  (** [current_oaiserver.record_sets_fetcher(record)] *)
  record_sets_fetcher : json -> list string
}.

(** Modelled from the spec: [invenio_search.utils.build_index_name] is not
    part of the module; the percolator index is named by the content-index
    name plus a fixed suffix. *)
Definition build_index_name (index suffix : string) : string := index ++ suffix.

(** Truth value of a string and of an optional string: [None] and the
    empty string are false. *)
Definition truthy (s : string) : bool := negb (String.eqb s EmptyString).

Definition truthy_opt (o : option string) : bool :=
  match o with
  | Some s => truthy s
  | None => false
  end.

Fixpoint assoc (key : string) (l : list (string * string)) : option string :=
  match l with
  | [] => None
  | (k, v) :: l' => if String.eqb k key then Some v else assoc key l'
  end.

(** ** The search engine client *)

Definition has_index (w : World) (index : string) : bool :=
  match indices w !! index with
  | Some _ => true
  | None => false
  end.

Definition doc_at (w : World) (index id : string) : option json :=
  match indices w !! index with
  | Some ix => ix_docs ix !! id
  | None => None
  end.

Definition props_at (w : World) (index : string) : option dict :=
  ix_properties <$> indices w !! index.

Definition properties_of (j : json) : dict :=
  match jget "properties" j with
  | Some (JObj p) => p
  | _ => []
  end.

(** [current_search_client.indices.exists(index)] *)
Definition indices_exists (index : string) : M bool :=
  send (Indices_exists index) >>>
  let! w := get_world in
  ret (has_index w index).

(** [current_search_client.indices.create(index, body)]: the engine answers
    400 when the index is already there. *)
Definition indices_create (index : string) (body : json) : M unit :=
  send (Indices_create index body) >>>
  let! w := get_world in
  if has_index w index then raise RequestError
  else
    let props := match jget "mappings" body with
                 | Some m => properties_of m
                 | None => []
                 end in
    modify (with_indices (insert index {| ix_properties := props; ix_docs := ∅ |})).

(** [current_search_client.indices.put_mapping(index, doc_type, body)]:
    merges the properties of [body] into the mapping of an existing index;
    404 when there is no such index. *)
Definition indices_put_mapping (index : string) (doc_type : option string)
    (body : json) : M unit :=
  send (Indices_put_mapping index doc_type body) >>>
  let! w := get_world in
  match indices w !! index with
  | None => raise NotFoundError
  | Some ix =>
      modify (with_indices (insert index
        {| ix_properties := dict_update (ix_properties ix) (properties_of body);
           ix_docs := ix_docs ix |}))
  end.

(** [current_search_client.index(index, doc_type, id, body)]: create or
    replace the document; a missing index is created on the fly. *)
Definition client_index (index : string) (doc_type : option string)
    (id : string) (body : json) : M unit :=
  send (Index_document index doc_type id body) >>>
  modify (with_indices (fun m =>
    let ix := default {| ix_properties := []; ix_docs := ∅ |} (m !! index) in
    <[index := {| ix_properties := ix_properties ix;
                  ix_docs := <[id := body]> (ix_docs ix) |}]> m)).

(** [current_search_client.delete(index, doc_type, id, ignore)]: 404 when
    the index or the document is missing, swallowed when [ignore] lists
    404. *)
Definition client_delete (index : string) (doc_type : option string)
    (id : string) (ignore : list Z) : M unit :=
  send (Delete_document index doc_type id) >>>
  let! w := get_world in
  let not_found : M unit :=
    if bool_decide (404%Z ∈ ignore) then ret tt else raise NotFoundError in
  match indices w !! index with
  | None => not_found
  | Some ix =>
      match ix_docs ix !! id with
      | None => not_found
      | Some _ =>
          modify (with_indices (insert index
            {| ix_properties := ix_properties ix;
               ix_docs := delete id (ix_docs ix) |}))
      end
  end.

Section Percolator.
Context `{Env}.

(** A stored document matches when it carries a [query] field that
    percolates one of the submitted documents. *)
Definition stored_query_matches (documents : list json) (body : json) : bool :=
  match jget "query" body with
  | Some q => existsb (percolates q) documents
  | None => false
  end.

(** The test a clause puts on a stored document; [None] when the clause
    refers to an indexed document that is not there. *)
Definition clause_filter (w : World) (c : query_clause)
    : option (string -> json -> bool) :=
  match c with
  | Percolate_documents documents =>
      Some (fun _ body => stored_query_matches documents body)
  | Percolate_document _ document =>
      Some (fun _ body => stored_query_matches [document] body)
  | Percolate_stored index id _ =>
      match doc_at w index id with
      | Some document => Some (fun _ body => stored_query_matches [document] body)
      | None => None
      end
  | Ids values => Some (fun id _ => bool_decide (id ∈ values))
  end.

Definition body_clauses (b : search_body) : list query_clause :=
  match b with
  | Empty_body => []
  | Query q => [q]
  | Bool_must queries => queries
  end.

Definition matching_hits (filters : list (string -> json -> bool))
    (ix : index_state) : list hit :=
  map (fun d => {| _id := d.1; _source := d.2 |})
      (List.filter (fun d => forallb (fun f => f d.1 d.2) filters)
                   (map_to_list (ix_docs ix))).

(** The engine returns ten hits when no [size] is given. *)
Definition default_size : nat := 10.

(** [current_search_client.search(index, body, size)]: the first page of
    the documents of [index] that pass every clause of [body]; an empty
    body matches every document.  A missing index is a 404 unless the
    request carries [ignore_unavailable]. *)
Definition client_search (index : string) (body : search_body)
    (size : option nat) (ignore_unavailable : bool) : M (list hit) :=
  send (Search_request index body size) >>>
  let! w := get_world in
  match indices w !! index with
  | None => if ignore_unavailable then ret [] else raise NotFoundError
  | Some ix =>
      match mapM (clause_filter w) (body_clauses body) with
      | None => raise NotFoundError
      | Some filters =>
          ret (take (default default_size size) (matching_hits filters ix))
      end
  end.

(** [current_search_client.percolate(index, doc_type, body={'doc': document})]
    of the engines before version 6, sent with [ignore_unavailable]; all
    matches are returned. *)
Definition client_percolate (index : string) (doc_type : option string)
    (document : json) : M (list hit) :=
  send (Percolate index doc_type document) >>>
  let! w := get_world in
  match indices w !! index with
  | None => ret []
  | Some ix =>
      ret (matching_hits [fun _ body => stored_query_matches [document] body] ix)
  end.

(** ** The OAISet table and the set cache *)

(** [OAISet.search_pattern.is_(None)] *)
Definition search_pattern_is_None (s : OAISet) : bool :=
  match search_pattern s with
  | None => true
  | Some _ => false
  end.

(** [OAISet.query.filter(OAISet.search_pattern.is_(None)).all()] *)
Definition OAISet_query_pattern_is_None : M (list OAISet) :=
  send (OAISet_query true) >>>
  let! w := get_world in
  ret (List.filter search_pattern_is_None (oaisets w)).

(** [OAISet.query.all()] *)
Definition OAISet_query_all : M (list OAISet) :=
  send (OAISet_query false) >>>
  let! w := get_world in
  ret (oaisets w).

(** [current_oaiserver.sets = sets] *)
Definition set_current_oaiserver_sets (sets : list string) : M unit :=
  modify (fun w =>
    {| indices := indices w; oaisets := oaisets w;
       current_oaiserver_sets := Some sets;
       requests := requests w |}).

(** [current_search.mappings[index]] *)
Definition mappings_subscript (index : string) : M string :=
  match assoc index mappings with
  | Some path => ret path
  | None => raise (KeyError index)
  end.

(** ** percolator.py *)

Definition _build_percolator_index_name (index : string) : string :=
  let suffix := "-percolators" in
  let suffix := if (ES_VERSION_0 <? 7)%Z then EmptyString else suffix in
  build_index_name index suffix.

Definition PERCOLATOR_MAPPING : json :=
  JObj [("properties", JObj [("query", JObj [("type", JStr "percolator")])])].

(** [mapping["mappings"]["properties"].update(PERCOLATOR_MAPPING["properties"])],
    as the mapping it leaves behind.  Subscripting a dictionary that lacks
    the key is a [KeyError], subscripting a value that is no dictionary a
    [TypeError], and a [properties] that is no dictionary has no [update]:
    [AttributeError]. *)
Definition update_mapping_properties (mapping : json) : exn + json :=
  match mapping with
  | JObj top =>
      match dict_get "mappings" top with
      | None => inl (KeyError "mappings")
      | Some (JObj inner) =>
          match dict_get "properties" inner with
          | None => inl (KeyError "properties")
          | Some (JObj props) =>
              inr (JObj (dict_set "mappings"
                     (JObj (dict_set "properties"
                        (JObj (dict_update props (properties_of PERCOLATOR_MAPPING)))
                        inner))
                     top))
          | Some _ => inl AttributeError
          end
      | Some _ => inl TypeError
      end
  | _ => inl TypeError
  end.

Definition _create_percolator_mapping (index : string)
    (doc_type : option string) (mapping_path : option string) : M unit :=
  let percolator_index := _build_percolator_index_name index in
  if bool_decide (ES_VERSION_0 = 5 \/ ES_VERSION_0 = 6)%Z then
    indices_put_mapping index doc_type PERCOLATOR_MAPPING
  else if bool_decide (ES_VERSION_0 = 7)%Z then
    let! mapping_path :=
      (if truthy_opt mapping_path then ret (default EmptyString mapping_path)
       else mappings_subscript index) in
    let! there := indices_exists percolator_index in
    if negb there then
      let! mapping := lift (update_mapping_properties (mapping_file mapping_path)) in
      indices_create percolator_index mapping
    else ret tt
  else ret tt.

(** Returns [None] on an engine version the function does not know.  On
    version 7 the document type is dropped from the search parameters; the
    body of the request is the same. *)
Definition _percolate_query (index doc_type : string)
    (percolator_doc_type : option string) (document : json)
    : M (option (list hit)) :=
  let index := _build_percolator_index_name index in
  if bool_decide (ES_VERSION_0 = 2 \/ ES_VERSION_0 = 5)%Z then
    let! results := client_percolate index (Some doc_type) document in
    ret (Some results)
  else if bool_decide (ES_VERSION_0 = 6 \/ ES_VERSION_0 = 7)%Z then
    let! results :=
      client_search index
        (Query (Percolate_document percolator_doc_type document)) None true in
    ret (Some results)
  else ret None.

Definition _get_percolator_doc_type (index : string) : M (option string) :=
  let es_ver := ES_VERSION_0 in
  if bool_decide (es_ver = 2)%Z then ret (Some ".percolator")
  else if bool_decide (es_ver = 5)%Z then ret (Some "percolators")
  else if bool_decide (es_ver = 6 \/ es_ver = 7)%Z then
    let! mapping_path := mappings_subscript index in
    let '(_, doc_type) := schema_to_index mapping_path in
    ret doc_type
  else ret None.

Definition _new_percolator (spec : string) (search_pattern : option string)
    : M unit :=
  if truthy spec && truthy_opt search_pattern then
    let query := query_string_parser search_pattern in
    for_each (fun '(index, mapping_path) =>
      let! percolator_doc_type := _get_percolator_doc_type index in
      _create_percolator_mapping index percolator_doc_type (Some mapping_path) >>>
      client_index (_build_percolator_index_name index) percolator_doc_type
        ("oaiset-" ++ spec) (JObj [("query", query)]))
      mappings
  else ret tt.

Definition _delete_percolator (spec : string) (search_pattern : option string)
    : M unit :=
  if truthy spec then
    for_each (fun index =>
      let! percolator_doc_type := _get_percolator_doc_type index in
      _create_percolator_mapping index percolator_doc_type None >>>
      client_delete (_build_percolator_index_name index) percolator_doc_type
        ("oaiset-" ++ spec) [404%Z])
      (map fst mappings)
  else ret tt.

Definition _build_cache : M (list string) :=
  let! w := get_world in
  match current_oaiserver_sets w with
  | None =>
      let! rows := OAISet_query_pattern_is_None in
      let sets := map spec rows in
      set_current_oaiserver_sets sets >>>
      ret sets
  | Some sets => ret sets
  end.

(** The first loop of the generator [get_record_sets]: the cached sets the
    record already lists. *)
Definition get_record_sets_static (record : json) : M (list string) :=
  let record_sets := record_sets_fetcher record in
  let! cache := _build_cache in
  ret (List.filter (fun spec => bool_decide (spec ∈ record_sets)) cache).

(** The names the second loop of [get_record_sets] yields for the hits of
    the percolate query. *)
Definition percolated_names (results : list hit) : list string :=
  let prefix := "oaiset-" in
  let prefix_len := String.length prefix in
  flat_map (fun match_ =>
    let set_name := _id match_ in
    if startswith set_name prefix then [string_drop prefix_len set_name]
    else []) results.

(** The second half of [get_record_sets]: percolate the record. *)
Definition get_record_sets_percolated (record : json) : M (list string) :=
  let '(index, doc_type) := record_to_index record in
  let document := record_dumps record in
  let! percolator_doc_type := _get_percolator_doc_type index in
  _create_percolator_mapping index percolator_doc_type None >>>
  let! results := _percolate_query index doc_type percolator_doc_type document in
  match results with
  | None => raise TypeError
  | Some results => ret (percolated_names results)
  end.

(** [list(get_record_sets(record))] *)
Definition get_record_sets (record : json) : M (list string) :=
  let! static := get_record_sets_static record in
  let! percolated := get_record_sets_percolated record in
  ret (static ++ percolated)%list.

Definition create_percolate_query (percolator_ids : option (list string))
    (documents : option (list json))
    (document_es_ids document_es_indices : option (list string))
    : search_body :=
  let finish (queries : list query_clause) : search_body :=
    let queries :=
      match percolator_ids with
      | Some (id :: ids) => (queries ++ [Ids (id :: ids)])%list
      | _ => queries
      end in
    Bool_must queries in
  match documents with
  | Some documents => finish [Percolate_documents documents]
  | None =>
      match document_es_ids, document_es_indices with
      | Some es_ids, Some es_indices =>
          if (length es_ids =? length es_indices)%nat then
            finish (map (fun '(es_id, es_index) =>
                      Percolate_stored es_index es_id (es_index ++ ":" ++ es_id))
                    (zip es_ids es_indices))
          else Empty_body
      | _, _ => Empty_body
      end
  end.

(** [current_search_client.index(index=..., id=..., body=...)], the call of
    [index_sets], which passes no document type.  The clients before
    version 7 have [doc_type] as a required argument of [index]: there the
    call raises [TypeError] and nothing is sent. *)
Definition client_index_without_doc_type (index id : string) (body : json)
    : M unit :=
  if (ES_VERSION_0 <? 7)%Z then raise TypeError
  else client_index index None id body.

Definition index_sets : M unit :=
  let! sets := OAISet_query_all in
  match sets with
  | [] => ret tt
  | _ :: _ =>
      let index := "rdmrecords-records-record-v4.0.0" in
      let! percolator_doc_type := _get_percolator_doc_type index in
      _create_percolator_mapping index percolator_doc_type None >>>
      for_each (fun set =>
        let query := query_string_parser (search_pattern set) in
        client_index_without_doc_type (_build_percolator_index_name index)
          (spec set) (JObj [("query", query)]))
        sets
  end.

(** The search asks for one page of 20 hits and opens a scroll that is
    never read. *)
Definition percolate_query (percolator_index : string)
    (percolator_ids : option (list string)) (documents : option (list json))
    (document_es_ids document_es_indices : option (list string))
    : M (list hit) :=
  index_sets >>>
  let query := create_percolate_query percolator_ids documents
                 document_es_ids document_es_indices in
  let! result := client_search percolator_index query (Some 20) false in
  ret result.

Definition record_in_set (record : json) (set_spec : string) : M bool :=
  let percolator_index :=
    _build_percolator_index_name "rdmrecords-records-record-v4.0.0" in
  let! result :=
    percolate_query percolator_index (Some [set_spec]) (Some [record]) None None in
  ret (0 <? length result)%nat.

Definition find_sets_for_record (record : json) : M (list string) :=
  let! hits :=
    percolate_query "rdmrecords-records-record-v4.0.0-percolators"
      None (Some [record]) None None in
  ret (map _id hits).

(** ** When the calls to the engine go through *)

(** The mapping file at [path] has [mappings.properties]. *)
Definition mapping_ok (path : string) : bool :=
  match update_mapping_properties (mapping_file path) with
  | inr _ => true
  | inl _ => false
  end.

Definition mappings_loadable : Prop :=
  Forall (fun ip => mapping_ok ip.2 = true) mappings.

(** What [_get_percolator_doc_type] and [_create_percolator_mapping] need
    to go through for a content index: on versions 5 and 6 the content
    index exists (the mapping is put on it), on versions 6 and 7 the index
    is registered in [current_search.mappings], and on version 7 the
    registered mapping files have their properties. *)
Definition ready (index : string) (w : World) : Prop :=
  ((ES_VERSION_0 = 5 \/ ES_VERSION_0 = 6)%Z -> has_index w index = true) /\
  ((ES_VERSION_0 = 6 \/ ES_VERSION_0 = 7)%Z -> is_Some (assoc index mappings)) /\
  (ES_VERSION_0 = 7%Z -> mappings_loadable).

Definition registry_ready (w : World) : Prop :=
  forall index, index ∈ map fst mappings -> ready index w.

(** Nothing is left to do for the percolator of [spec] on [index]: the
    index manager has done its work and the document is gone. *)
Definition settled (spec index : string) (w : World) : Prop :=
  ready index w /\
  ((ES_VERSION_0 = 5 \/ ES_VERSION_0 = 6)%Z ->
   exists p, props_at w index = Some p /\
             dict_update p (properties_of PERCOLATOR_MAPPING) = p) /\
  (ES_VERSION_0 = 7%Z ->
   has_index w (_build_percolator_index_name index) = true) /\
  doc_at w (_build_percolator_index_name index) ("oaiset-" ++ spec) = None.

(** The percolator of [spec] is in place on [index] with [body], and the
    index manager has nothing left to do there. *)
Definition upserted (spec : string) (body : json) (index : string)
    (w : World) : Prop :=
  ready index w /\
  ((ES_VERSION_0 = 5 \/ ES_VERSION_0 = 6)%Z ->
   exists p, props_at w index = Some p /\
             dict_update p (properties_of PERCOLATOR_MAPPING) = p) /\
  (ES_VERSION_0 = 7%Z ->
   has_index w (_build_percolator_index_name index) = true) /\
  doc_at w (_build_percolator_index_name index) ("oaiset-" ++ spec) = Some body.

(** The engine versions the module knows. *)
Definition known_version : Prop :=
  (ES_VERSION_0 = 2 \/ ES_VERSION_0 = 5 \/ ES_VERSION_0 = 6 \/ ES_VERSION_0 = 7)%Z.

(** The requests sent between two worlds. *)
Definition sent_between (w w' : World) (rs : list request) : Prop :=
  requests w' = (requests w ++ rs)%list.

End Percolator.

(** ** A small installation to run the module on *)

Module Demo.

Definition rdm : string := "rdmrecords-records-record-v4.0.0".

(** A record is the list of its terms; a stored query is one term and
    matches the records that carry it. *)
Definition terms (j : json) : list string :=
  match j with
  | JArr l => flat_map (fun x => match x with JStr s => [s] | _ => [] end) l
  | _ => []
  end.

Definition demo_env (version : Z) : Env := {|
  ES_VERSION_0 := version;
  mappings := [(rdm, "records/record-v4.0.0.json")];
  mapping_file := fun _ =>
    JObj [("mappings",
           JObj [("properties", JObj [("title", JObj [("type", JStr "text")])])])];
  schema_to_index := fun _ => (Some rdm, None);
  query_string_parser := fun p =>
    match p with Some s => JStr s | None => JNull end;
  percolates := fun q d =>
    match q with JStr s => bool_decide (s ∈ terms d) | _ => false end;
  record_to_index := fun _ => (rdm, "_doc");
  record_dumps := fun r => r;
  record_sets_fetcher := fun _ => ["curated"]
|}.

Definition env7 : Env := demo_env 7.
Definition env5 : Env := demo_env 5.

Definition world (sets : list OAISet) : World :=
  {| indices := ∅; oaisets := sets; current_oaiserver_sets := None;
     requests := [] |}.

Definition physics_record : json := JArr [JStr "physics"].

(** One set defined by a search pattern, and nothing indexed yet. *)
Definition w_pattern : World :=
  world [ {| spec := "a"; search_pattern := Some "physics" |} ].

(** One static set. *)
Definition w_static : World :=
  world [ {| spec := "curated"; search_pattern := None |} ].

(** One set whose search pattern is the empty string. *)
Definition w_empty_pattern : World :=
  world [ {| spec := "e"; search_pattern := Some EmptyString |} ].

(** An engine of version 5 whose content index has no percolator field
    yet. *)
Definition w_content_index : World :=
  {| indices := {[ rdm := {| ix_properties := []; ix_docs := ∅ |} ]};
     oaisets := []; current_oaiserver_sets := None; requests := [] |}.

(** Twenty-one sets that all match [physics_record]. *)
Definition many_specs : list string :=
  ["a"; "b"; "c"; "d"; "e"; "f"; "g"; "h"; "i"; "j"; "k"; "l"; "m"; "n"; "o"; "p"; "q"; "r"; "s"; "t"; "u"].

Definition w_many : World :=
  world (map (fun s => {| spec := s; search_pattern := Some "physics" |})
             many_specs).

(** An engine version the module does not know. *)
Definition env8 : Env := demo_env 8.

(** Version 7 with no index registered in [current_search.mappings]. *)
Definition env_unregistered : Env := {|
  ES_VERSION_0 := 7;
  mappings := [];
  mapping_file := @mapping_file env7;
  schema_to_index := @schema_to_index env7;
  query_string_parser := @query_string_parser env7;
  percolates := @percolates env7;
  record_to_index := @record_to_index env7;
  record_dumps := @record_dumps env7;
  record_sets_fetcher := @record_sets_fetcher env7
|}.

(** The world after the percolator of set ["a"] was written on version 7. *)
Definition w_upserted : World :=
  world_of (@_new_percolator env7 "a" (Some "physics") w_pattern).

(** Version 7 with a fetcher that binds every record to the sets ["e"]
    and ["curated"]. *)
Definition env_bound : Env := {|
  ES_VERSION_0 := 7;
  mappings := @mappings env7;
  mapping_file := @mapping_file env7;
  schema_to_index := @schema_to_index env7;
  query_string_parser := @query_string_parser env7;
  percolates := @percolates env7;
  record_to_index := @record_to_index env7;
  record_dumps := @record_dumps env7;
  record_sets_fetcher := fun _ => ["e"; "curated"]
|}.

(** A set whose search pattern is the empty string and a set without a
    search pattern. *)
Definition w_two_static : World :=
  world [ {| spec := "e"; search_pattern := Some EmptyString |};
          {| spec := "curated"; search_pattern := None |} ].


End Demo.

(** * Proofs *)

Ltac run := unfold bind, ret, raise, send, modify, get_world, lift; simpl.

(** ** The set cache *)

Section SetCache.

Lemma elem_of_filter_bool {A} (f : A -> bool) (l : list A) (x : A) :
  x ∈ List.filter f l <-> x ∈ l /\ f x = true.
Proof.
  rewrite !list_elem_of_In. apply filter_In.
Qed.

Lemma pattern_free_names (sets : list OAISet) (name : string) :
  name ∈ map spec (List.filter search_pattern_is_None sets) <->
  exists s, s ∈ sets /\ spec s = name /\ search_pattern s = None.
Proof.
  rewrite list_elem_of_fmap. split.
  - intros (s & -> & Hs). apply elem_of_filter_bool in Hs as [Hin Hnone].
    exists s. repeat split; auto.
    unfold search_pattern_is_None in Hnone.
    destruct (search_pattern s); congruence.
  - intros (s & Hin & <- & Hnone). exists s. split; auto.
    apply elem_of_filter_bool. split; auto.
    unfold search_pattern_is_None. now rewrite Hnone.
Qed.

Lemma build_cache_unset (w : World) :
  current_oaiserver_sets w = None ->
  _build_cache w =
    Done (map spec (List.filter search_pattern_is_None (oaisets w)))
      {| indices := indices w; oaisets := oaisets w;
         current_oaiserver_sets :=
           Some (map spec (List.filter search_pattern_is_None (oaisets w)));
         requests := (requests w ++ [OAISet_query true])%list |}.
Proof.
  intros Hc.
  unfold _build_cache, OAISet_query_pattern_is_None, set_current_oaiserver_sets.
  run. rewrite Hc. reflexivity.
Qed.

Lemma build_cache_set (w : World) (sets : list string) :
  current_oaiserver_sets w = Some sets -> _build_cache w = Done sets w.
Proof.
  intros Hc. unfold _build_cache. run. now rewrite Hc.
Qed.

Lemma build_cache_total (w : World) :
  exists cache w', _build_cache w = Done cache w' /\
    indices w' = indices w /\ oaisets w' = oaisets w.
Proof.
  destruct (current_oaiserver_sets w) as [sets|] eqn:Hc.
  - exists sets, w. split; [now apply build_cache_set | auto].
  - eexists _, _. split; [now apply build_cache_unset | auto].
Qed.

(** C4, amended: with the cache unset, [_build_cache] returns exactly the
    names of the sets whose search pattern is [None] in the table (a set
    whose pattern is the empty string is not among them), stores that list
    in [current_oaiserver.sets] after one query of the table, and any later
    call that finds the list still in the cache returns it and leaves the
    world as it is: no query is sent, whatever the table holds by then. *)
Theorem build_cache_memoizes (w : World) :
  current_oaiserver_sets w = None ->
  exists names w1,
    _build_cache w = Done names w1 /\
    names = map spec (List.filter search_pattern_is_None (oaisets w)) /\
    (forall name, name ∈ names <->
       exists s, s ∈ oaisets w /\ spec s = name /\ search_pattern s = None) /\
    current_oaiserver_sets w1 = Some names /\
    sent_between w w1 [OAISet_query true] /\
    forall w2, current_oaiserver_sets w2 = Some names ->
      _build_cache w2 = Done names w2.
Proof.
  intros Hc. eexists _, _. split; [apply build_cache_unset, Hc|].
  split; [reflexivity|]. split; [apply pattern_free_names|].
  split; [reflexivity|]. split; [reflexivity|].
  intros w2 Hw2. now apply build_cache_set.
Qed.

Context `{Env}.

(** C5, amended: the first loop of [get_record_sets] yields exactly the
    names of the cache, as [_build_cache] returns it, that the record's
    fetcher lists: a name is yielded if and only if it is in the cache and
    bound to the record.  When the cache is built by this very call, the
    cached names are those of the sets of the table whose search pattern
    is [None]; a set whose pattern is the empty string is not among them.
    The names come first in what [get_record_sets] yields. *)
Theorem static_step_is_intersection (record : json) (w : World) :
  exists cache static w',
    _build_cache w = Done cache w' /\
    get_record_sets_static record w = Done static w' /\
    (forall name, name ∈ static <->
       name ∈ cache /\ name ∈ record_sets_fetcher record) /\
    (current_oaiserver_sets w = None ->
       forall name, name ∈ static <->
         (exists s, s ∈ oaisets w /\ spec s = name /\ search_pattern s = None) /\
         name ∈ record_sets_fetcher record) /\
    (forall percolated w'',
       get_record_sets_percolated record w' = Done percolated w'' ->
       get_record_sets record w = Done (static ++ percolated)%list w'').
Proof.
  destruct (build_cache_total w) as (cache & w' & Hrun & _).
  exists cache, (List.filter (fun s => bool_decide (s ∈ record_sets_fetcher record)) cache), w'.
  assert (Hstatic : get_record_sets_static record w =
    Done (List.filter (fun s => bool_decide (s ∈ record_sets_fetcher record)) cache) w').
  { unfold get_record_sets_static, bind. now rewrite Hrun. }
  assert (Hmem : forall name,
    name ∈ List.filter (fun s => bool_decide (s ∈ record_sets_fetcher record)) cache <->
    name ∈ cache /\ name ∈ record_sets_fetcher record).
  { intros name. rewrite elem_of_filter_bool, bool_decide_eq_true. tauto. }
  split; [assumption|]. split; [assumption|]. split; [assumption|]. split.
  - intros Hc name.
    rewrite build_cache_unset in Hrun by assumption.
    injection Hrun as <- _.
    rewrite Hmem, pattern_free_names. reflexivity.
  - intros percolated w'' Hp. unfold get_record_sets, bind.
    rewrite Hstatic, Hp. reflexivity.
Qed.

End SetCache.

(** ** The engine client *)

Section Engine.

Lemma has_index_true (w : World) (i : string) :
  has_index w i = true <-> is_Some (indices w !! i).
Proof.
  unfold has_index. destruct (indices w !! i); split; intros Hx;
    try done; try (by eexists).
Qed.

Lemma has_index_false (w : World) (i : string) :
  has_index w i = false <-> indices w !! i = None.
Proof.
  unfold has_index. destruct (indices w !! i); split; intros Hx; done.
Qed.

Lemma doc_at_no_index (w : World) (i j : string) :
  has_index w i = false -> doc_at w i j = None.
Proof.
  intros Hx. apply has_index_false in Hx. unfold doc_at. now rewrite Hx.
Qed.

(** Two engines with the same indices, properties and documents are the
    same engine. *)
Lemma indices_ext (w w' : World) :
  (forall i, has_index w' i = has_index w i) ->
  (forall i, props_at w' i = props_at w i) ->
  (forall i j, doc_at w' i j = doc_at w i j) ->
  indices w' = indices w.
Proof.
  intros Hh Hp Hd. apply map_eq. intros i.
  specialize (Hh i). specialize (Hp i). specialize (Hd i).
  unfold has_index, props_at, doc_at in *.
  destruct (indices w' !! i) as [[p' d']|], (indices w !! i) as [[p d]|];
    simpl in *; try done.
  injection Hp as ->. f_equal. f_equal. apply map_eq, Hd.
Qed.

(** Observations on an engine in which one index was overwritten. *)
Lemma has_index_insert (w : World) (index : string) (ix : index_state) (i : string) :
  has_index (with_indices (insert index ix) w) i =
  if decide (i = index) then true else has_index w i.
Proof.
  unfold has_index, with_indices. simpl. rewrite lookup_insert.
  destruct (decide (index = i)), (decide (i = index)); simplify_eq; done.
Qed.

Lemma props_at_insert (w : World) (index : string) (ix : index_state) (i : string) :
  props_at (with_indices (insert index ix) w) i =
  if decide (i = index) then Some (ix_properties ix) else props_at w i.
Proof.
  unfold props_at, with_indices. simpl. rewrite lookup_insert.
  destruct (decide (index = i)), (decide (i = index)); simplify_eq; done.
Qed.

Lemma doc_at_insert (w : World) (index : string) (ix : index_state) (i j : string) :
  doc_at (with_indices (insert index ix) w) i j =
  if decide (i = index) then ix_docs ix !! j else doc_at w i j.
Proof.
  unfold doc_at, with_indices. simpl. rewrite lookup_insert.
  destruct (decide (index = i)), (decide (i = index)); simplify_eq; done.
Qed.

(** *** [indices.put_mapping] *)

Lemma put_mapping_run (index : string) (dt : option string) (body : json)
    (w : World) :
  has_index w index = true ->
  exists w', indices_put_mapping index dt body w = Done tt w' /\
    sent_between w w' [Indices_put_mapping index dt body] /\
    oaisets w' = oaisets w /\
    current_oaiserver_sets w' = current_oaiserver_sets w /\
    (forall i, has_index w' i = has_index w i) /\
    (forall i j, doc_at w' i j = doc_at w i j) /\
    (forall i, props_at w' i =
       if decide (i = index)
       then (fun p => dict_update p (properties_of body)) <$> props_at w i
       else props_at w i).
Proof.
  intros Hx. unfold indices_put_mapping. run.
  destruct (indices w !! index) as [ix|] eqn:Hix.
  2:{ unfold has_index in Hx. now rewrite Hix in Hx. }
  eexists. split; [reflexivity|].
  split; [reflexivity|]. split; [reflexivity|]. split; [reflexivity|].
  split; [|split].
  - intros i. rewrite has_index_insert. destruct (decide (i = index)) as [->|]; auto.
  - intros i j. rewrite doc_at_insert. simpl.
    destruct (decide (i = index)) as [->|]; auto.
    unfold doc_at. simpl. now rewrite Hix.
  - intros i. rewrite props_at_insert. simpl.
    destruct (decide (i = index)) as [->|]; auto.
    unfold props_at. simpl. now rewrite Hix.
Qed.

Lemma put_mapping_missing (index : string) (dt : option string) (body : json)
    (w : World) :
  has_index w index = false ->
  indices_put_mapping index dt body w =
  Raised NotFoundError (log (Indices_put_mapping index dt body) w).
Proof.
  intros Hx. apply has_index_false in Hx.
  unfold indices_put_mapping. run. now rewrite Hx.
Qed.

(** *** [indices.create] *)

Lemma create_run (index : string) (body : json) (w : World) :
  has_index w index = false ->
  exists w', indices_create index body w = Done tt w' /\
    sent_between w w' [Indices_create index body] /\
    oaisets w' = oaisets w /\
    current_oaiserver_sets w' = current_oaiserver_sets w /\
    (forall i, has_index w' i = if decide (i = index) then true else has_index w i) /\
    (forall i j, doc_at w' i j = doc_at w i j) /\
    (forall i, i <> index -> props_at w' i = props_at w i).
Proof.
  intros Hx. unfold indices_create. run.
  replace (has_index (log (Indices_create index body) w) index) with false.
  eexists. split; [reflexivity|].
  split; [reflexivity|]. split; [reflexivity|]. split; [reflexivity|].
  split; [|split].
  - intros i. now rewrite has_index_insert.
  - intros i j. rewrite doc_at_insert. simpl.
    destruct (decide (i = index)) as [->|]; auto.
    rewrite lookup_empty. symmetry. now apply doc_at_no_index.
  - intros i Hne. rewrite props_at_insert. now destruct (decide (i = index)).
Qed.

(** *** [index] *)

Lemma client_index_run (index : string) (dt : option string) (id : string)
    (body : json) (w : World) :
  exists w', client_index index dt id body w = Done tt w' /\
    sent_between w w' [Index_document index dt id body] /\
    oaisets w' = oaisets w /\
    current_oaiserver_sets w' = current_oaiserver_sets w /\
    (forall i, has_index w' i = if decide (i = index) then true else has_index w i) /\
    (forall i j, doc_at w' i j =
       if decide (i = index /\ j = id) then Some body else doc_at w i j) /\
    (forall i, has_index w i = true -> props_at w' i = props_at w i).
Proof.
  unfold client_index. run.
  eexists. split; [reflexivity|].
  split; [reflexivity|]. split; [reflexivity|]. split; [reflexivity|].
  split; [|split].
  - intros i. apply (has_index_insert (log _ w)).
  - intros i j.
    etrans; [apply (doc_at_insert (log (Index_document index dt id body) w))|]. simpl.
    destruct (decide (i = index)) as [->|Hne].
    + rewrite lookup_insert. unfold doc_at.
      destruct (decide (id = j)) as [Hj|Hj],
               (decide (index = index /\ j = id)) as [[_ Hj']|Hn];
        try done; try (exfalso; auto; fail).
      destruct (indices w !! index) as [ix|]; simpl; [done|apply lookup_empty].
    + destruct (decide (i = index /\ j = id)); [tauto|reflexivity].
  - intros i Hx.
    etrans; [apply (props_at_insert (log (Index_document index dt id body) w))|]. simpl.
    destruct (decide (i = index)) as [->|]; auto.
    apply has_index_true in Hx as [ix Hix]. unfold props_at. now rewrite Hix.
Qed.

(** *** [delete] with [ignore=[404]] *)

Lemma client_delete_run (index : string) (dt : option string) (id : string)
    (w : World) :
  exists w', client_delete index dt id [404%Z] w = Done tt w' /\
    sent_between w w' [Delete_document index dt id] /\
    oaisets w' = oaisets w /\
    current_oaiserver_sets w' = current_oaiserver_sets w /\
    (forall i, has_index w' i = has_index w i) /\
    (forall i j, doc_at w' i j =
       if decide (i = index /\ j = id) then None else doc_at w i j) /\
    (forall i, props_at w' i = props_at w i) /\
    (doc_at w index id = None -> indices w' = indices w).
Proof.
  unfold client_delete. run.
  destruct (indices w !! index) as [ix|] eqn:Hix;
    [destruct (ix_docs ix !! id) as [d|] eqn:Hd|].
  - eexists. split; [reflexivity|].
    split; [reflexivity|]. split; [reflexivity|]. split; [reflexivity|].
    split; [|split; [|split]].
    + intros i. rewrite has_index_insert.
      destruct (decide (i = index)) as [->|]; auto.
      symmetry. apply has_index_true. simpl. eauto.
    + intros i j. rewrite doc_at_insert. simpl.
      destruct (decide (i = index)) as [->|Hne].
      * destruct (decide (index = index /\ j = id)) as [[_ ->]|Hn].
        -- apply lookup_delete_eq.
        -- rewrite lookup_delete_ne by (intros ->; tauto).
           unfold doc_at. simpl. now rewrite Hix.
      * destruct (decide (i = index /\ j = id)); [tauto|reflexivity].
    + intros i. rewrite props_at_insert. simpl.
      destruct (decide (i = index)) as [->|]; auto.
      unfold props_at. simpl. now rewrite Hix.
    + unfold doc_at. rewrite Hix, Hd. discriminate.
  - eexists. split; [reflexivity|].
    split; [reflexivity|]. split; [reflexivity|]. split; [reflexivity|].
    split; [reflexivity|]. split; [|split; [reflexivity|reflexivity]].
    intros i j. destruct (decide (i = index /\ j = id)) as [[-> ->]|]; auto.
    unfold doc_at. simpl. now rewrite Hix.
  - eexists. split; [reflexivity|].
    split; [reflexivity|]. split; [reflexivity|]. split; [reflexivity|].
    split; [reflexivity|]. split; [|split; [reflexivity|reflexivity]].
    intros i j. destruct (decide (i = index /\ j = id)) as [[-> ->]|]; auto.
    unfold doc_at. simpl. now rewrite Hix.
Qed.

(** Without [ignore], deleting a document that is not there raises. *)
Lemma client_delete_not_ignored (index : string) (dt : option string)
    (id : string) (w : World) :
  doc_at w index id = None ->
  client_delete index dt id [] w =
  Raised NotFoundError (log (Delete_document index dt id) w).
Proof.
  intros Hd. unfold client_delete, doc_at in *. run.
  destruct (indices w !! index) as [ix|]; [|reflexivity].
  now rewrite Hd.
Qed.

End Engine.

(** ** Index names, document types and the percolator mapping *)

Section IndexManager.
Context `{Env}.

Lemma string_app_empty_r (s : string) : s ++ EmptyString = s.
Proof.
  induction s as [|c s IH]; [reflexivity|].
  change (String c (s ++ EmptyString) = String c s). now rewrite IH.
Qed.

Lemma percolator_index_name_old (index : string) :
  (ES_VERSION_0 < 7)%Z -> _build_percolator_index_name index = index.
Proof.
  intros Hv. unfold _build_percolator_index_name, build_index_name.
  apply Z.ltb_lt in Hv. rewrite Hv. simpl. apply string_app_empty_r.
Qed.

Lemma percolator_index_name_7 (index : string) :
  ES_VERSION_0 = 7%Z ->
  _build_percolator_index_name index = index ++ "-percolators".
Proof.
  intros Hv. unfold _build_percolator_index_name, build_index_name.
  now rewrite Hv.
Qed.

Lemma create_mapping_56 (index : string) (dt mp : option string) :
  (ES_VERSION_0 = 5 \/ ES_VERSION_0 = 6)%Z ->
  _create_percolator_mapping index dt mp =
  indices_put_mapping index dt PERCOLATOR_MAPPING.
Proof.
  intros Hv. unfold _create_percolator_mapping.
  now rewrite bool_decide_eq_true_2.
Qed.

Lemma create_mapping_other (index : string) (dt mp : option string) :
  ES_VERSION_0 <> 5%Z -> ES_VERSION_0 <> 6%Z -> ES_VERSION_0 <> 7%Z ->
  _create_percolator_mapping index dt mp = ret tt.
Proof.
  intros H5 H6 H7. unfold _create_percolator_mapping.
  rewrite bool_decide_eq_false_2 by tauto.
  now rewrite bool_decide_eq_false_2.
Qed.

Lemma create_mapping_7 (index : string) (dt mp : option string) :
  ES_VERSION_0 = 7%Z ->
  _create_percolator_mapping index dt mp =
  (let! mapping_path :=
     (if truthy_opt mp then ret (default EmptyString mp) else mappings_subscript index) in
   let! there := indices_exists (_build_percolator_index_name index) in
   if negb there then
     let! mapping := lift (update_mapping_properties (mapping_file mapping_path)) in
     indices_create (_build_percolator_index_name index) mapping
   else ret tt).
Proof.
  intros Hv. unfold _create_percolator_mapping.
  rewrite bool_decide_eq_false_2 by lia.
  now rewrite bool_decide_eq_true_2.
Qed.

(** With the percolator index in place, version 7 only asks whether it
    exists (after looking the mapping path up, when none is passed). *)
Lemma create_mapping_7_exists (index : string) (dt mp : option string) (w : World) :
  ES_VERSION_0 = 7%Z ->
  has_index w (_build_percolator_index_name index) = true ->
  _create_percolator_mapping index dt mp w =
  if truthy_opt mp || bool_decide (is_Some (assoc index mappings))
  then Done tt (log (Indices_exists (_build_percolator_index_name index)) w)
  else Raised (KeyError index) w.
Proof.
  intros Hv Hx. rewrite create_mapping_7 by assumption. simpl.
  unfold mappings_subscript, indices_exists. run.
  assert (Hx' : has_index (log (Indices_exists (_build_percolator_index_name index)) w)
                  (_build_percolator_index_name index) = true) by exact Hx.
  destruct (truthy_opt mp); simpl.
  - now rewrite Hx'.
  - destruct (assoc index mappings); run; [|reflexivity].
    rewrite Hx'. try rewrite bool_decide_eq_true_2 by eauto. reflexivity.
Qed.

Lemma create_mapping_7_path (index : string) (dt mp : option string) (w w1 : World) :
  ES_VERSION_0 = 7%Z ->
  _create_percolator_mapping index dt mp w = Done tt w1 ->
  truthy_opt mp || bool_decide (is_Some (assoc index mappings)) = true.
Proof.
  intros Hv. rewrite create_mapping_7 by assumption.
  unfold mappings_subscript. run.
  destruct (truthy_opt mp); [reflexivity|]. simpl.
  destruct (assoc index mappings); [|discriminate].
  intros _. apply bool_decide_eq_true_2. eauto.
Qed.

(** After a call of version 7 that went through, the percolator index
    exists. *)
Lemma create_mapping_7_done (index : string) (dt mp : option string) (w w1 : World) :
  ES_VERSION_0 = 7%Z ->
  _create_percolator_mapping index dt mp w = Done tt w1 ->
  has_index w1 (_build_percolator_index_name index) = true.
Proof.
  intros Hv. rewrite create_mapping_7 by assumption.
  unfold mappings_subscript, indices_exists. run.
  set (pidx := _build_percolator_index_name index).
  assert (Hstep : forall path,
    (if negb (has_index (log (Indices_exists pidx) w) pidx)
     then bind (lift (update_mapping_properties (mapping_file path)))
            (fun mapping => indices_create pidx mapping)
     else ret tt) (log (Indices_exists pidx) w) = Done tt w1 ->
    has_index w1 pidx = true).
  { intros path.
    change (has_index (log (Indices_exists pidx) w) pidx) with (has_index w pidx).
    destruct (has_index w pidx) eqn:Hx; simpl.
    - unfold ret. intros [= <-]. exact Hx.
    - unfold bind, lift.
      destruct (update_mapping_properties (mapping_file path)) as [e|m];
        [discriminate|]. unfold ret.
      destruct (create_run pidx m (log (Indices_exists pidx) w) Hx)
        as (w' & Hrun & _ & _ & _ & Hhas & _).
      rewrite Hrun. intros [= <-]. rewrite Hhas. now destruct (decide (pidx = pidx)). }
  destruct (truthy_opt mp); [apply Hstep|].
  destruct (assoc index mappings); [apply Hstep|discriminate].
Qed.

Lemma dict_set_twice (k : string) (v : json) (d : dict) :
  dict_set k v (dict_set k v d) = dict_set k v d.
Proof.
  induction d as [|[k' v'] d IH]; simpl.
  - now rewrite String.eqb_refl.
  - destruct (String.eqb k' k) eqn:Hk; simpl; rewrite Hk; [reflexivity|].
    now rewrite IH.
Qed.

Lemma percolator_properties_twice (p : dict) :
  dict_update (dict_update p (properties_of PERCOLATOR_MAPPING))
    (properties_of PERCOLATOR_MAPPING) =
  dict_update p (properties_of PERCOLATOR_MAPPING).
Proof. apply dict_set_twice. Qed.

(** A call that went through can be repeated and changes nothing the
    second time. *)
Lemma create_mapping_again (index : string) (dt mp : option string)
    (w w1 : World) :
  _create_percolator_mapping index dt mp w = Done tt w1 ->
  exists w2, _create_percolator_mapping index dt mp w1 = Done tt w2 /\
             indices w2 = indices w1.
Proof.
  intros Hrun.
  destruct (decide (ES_VERSION_0 = 5 \/ ES_VERSION_0 = 6)%Z) as [Hv|Hv].
  - rewrite create_mapping_56 in * by assumption.
    destruct (has_index w index) eqn:Hx.
    2:{ rewrite put_mapping_missing in Hrun by assumption. discriminate. }
    destruct (put_mapping_run index dt PERCOLATOR_MAPPING w Hx)
      as (w1' & Hrun1 & _ & _ & _ & Hhas1 & Hdoc1 & Hprops1).
    rewrite Hrun in Hrun1. injection Hrun1 as <-.
    assert (Hx1 : has_index w1 index = true) by now rewrite Hhas1.
    destruct (put_mapping_run index dt PERCOLATOR_MAPPING w1 Hx1)
      as (w2 & Hrun2 & _ & _ & _ & Hhas2 & Hdoc2 & Hprops2).
    exists w2. split; [assumption|].
    apply indices_ext; [assumption| |assumption].
    intros i. rewrite Hprops2.
    destruct (decide (i = index)) as [->|]; [|reflexivity].
    rewrite Hprops1. destruct (decide (index = index)); [|done].
    destruct (props_at w index) as [p|]; [|reflexivity].
    apply (f_equal Some), percolator_properties_twice.
  - destruct (decide (ES_VERSION_0 = 7%Z)) as [H7|H7].
    + pose proof (create_mapping_7_done _ _ _ _ _ H7 Hrun) as Hx1.
      pose proof (create_mapping_7_path _ _ _ _ _ H7 Hrun) as Hpath.
      rewrite create_mapping_7_exists by assumption. rewrite Hpath.
      eexists. split; reflexivity.
    + rewrite create_mapping_other by tauto.
      exists w1. split; reflexivity.
Qed.

(** C7, amended: on engine version 7, and on the versions the function
    does nothing for, a call that finds the derived percolator index in
    place leaves the engine as it is and sends at most the existence check,
    never a creation.  On versions 5 and 6 every call puts the percolator
    field into the mapping of the content index.  On every version, a call
    repeated after one that went through goes through as well and leaves
    the engine as the first call left it. *)
Theorem create_percolator_mapping_idempotent (index : string)
    (dt mp : option string) (w : World) :
  (ES_VERSION_0 <> 5%Z -> ES_VERSION_0 <> 6%Z ->
   has_index w (_build_percolator_index_name index) = true ->
   let w' := world_of (_create_percolator_mapping index dt mp w) in
   indices w' = indices w /\
   (requests w' = requests w \/
    requests w' =
      (requests w ++ [Indices_exists (_build_percolator_index_name index)])%list)) /\
  ((ES_VERSION_0 = 5 \/ ES_VERSION_0 = 6)%Z -> has_index w index = true ->
   exists w',
     _create_percolator_mapping index dt mp w = Done tt w' /\
     sent_between w w' [Indices_put_mapping index dt PERCOLATOR_MAPPING] /\
     props_at w' index =
       (fun p => dict_update p (properties_of PERCOLATOR_MAPPING)) <$>
         props_at w index) /\
  (forall w1, _create_percolator_mapping index dt mp w = Done tt w1 ->
   exists w2, _create_percolator_mapping index dt mp w1 = Done tt w2 /\
              indices w2 = indices w1).
Proof.
  split; [|split].
  - intros H5 H6 Hx. destruct (decide (ES_VERSION_0 = 7%Z)) as [H7|H7].
    + rewrite create_mapping_7_exists by assumption.
      destruct (truthy_opt mp || bool_decide (is_Some (assoc index mappings)));
        simpl; auto.
    + rewrite create_mapping_other by assumption. simpl. auto.
  - intros Hv Hx. rewrite create_mapping_56 by assumption.
    destruct (put_mapping_run index dt PERCOLATOR_MAPPING w Hx)
      as (w' & Hrun & Hsent & _ & _ & _ & _ & Hprops).
    exists w'. split; [assumption|]. split; [assumption|].
    rewrite Hprops. now destruct (decide (index = index)).
  - apply create_mapping_again.
Qed.

End IndexManager.

(** ** The percolator registry *)

Section Registry.
Context `{Env}.

Lemma assoc_elem (k v : string) (l : list (string * string)) :
  assoc k l = Some v -> (k, v) ∈ l.
Proof.
  induction l as [|[k' v'] l IH]; simpl; [discriminate|].
  destruct (String.eqb k' k) eqn:Hk.
  - apply String.eqb_eq in Hk as ->. intros [= ->]. left.
  - intros Hl. right. auto.
Qed.

Lemma assoc_keys (k : string) (l : list (string * string)) :
  k ∈ map fst l -> is_Some (assoc k l).
Proof.
  induction l as [|[k' v'] l IH]; simpl.
  - intros Hin. inversion Hin.
  - intros Hin. destruct (String.eqb k' k) eqn:Hk; [eauto|].
    apply String.eqb_neq in Hk.
    apply elem_of_cons in Hin as [->|Hin]; [done|auto].
Qed.

Lemma loadable_path (index path : string) :
  mappings_loadable -> (index, path) ∈ mappings -> mapping_ok path = true.
Proof.
  unfold mappings_loadable. rewrite Forall_forall.
  intros Hall Hin. apply (Hall (index, path)), Hin.
Qed.

Lemma get_doc_type_run (index : string) (w : World) :
  ((ES_VERSION_0 = 6 \/ ES_VERSION_0 = 7)%Z -> is_Some (assoc index mappings)) ->
  exists dt, _get_percolator_doc_type index w = Done dt w.
Proof.
  intros Hreg. unfold _get_percolator_doc_type, mappings_subscript.
  repeat case_bool_decide; run; eauto.
  destruct Hreg as [path ->]; [assumption|]. run.
  destruct (schema_to_index path). eauto.
Qed.

(** What a call of [_create_percolator_mapping] that is [ready] does. *)
Lemma create_mapping_run (index : string) (dt mp : option string) (w : World) :
  ready index w ->
  (ES_VERSION_0 = 7%Z -> forall p, mp = Some p -> mapping_ok p = true) ->
  exists w',
    _create_percolator_mapping index dt mp w = Done tt w' /\
    oaisets w' = oaisets w /\
    current_oaiserver_sets w' = current_oaiserver_sets w /\
    (exists rs, sent_between w w' rs) /\
    (forall i, has_index w i = true -> has_index w' i = true) /\
    (ES_VERSION_0 = 7%Z ->
     has_index w' (_build_percolator_index_name index) = true) /\
    (forall i j, doc_at w' i j = doc_at w i j) /\
    ((ES_VERSION_0 = 5 \/ ES_VERSION_0 = 6)%Z ->
     forall i, props_at w' i =
       if decide (i = index)
       then (fun p => dict_update p (properties_of PERCOLATOR_MAPPING)) <$>
              props_at w i
       else props_at w i).
Proof.
  intros (Hcontent & Hreg & Hload) Hpath.
  destruct (decide (ES_VERSION_0 = 5 \/ ES_VERSION_0 = 6)%Z) as [Hv|Hv].
  - rewrite create_mapping_56 by assumption.
    destruct (put_mapping_run index dt PERCOLATOR_MAPPING w (Hcontent Hv))
      as (w' & Hrun & Hsent & Hsets & Hcache & Hhas & Hdoc & Hprops).
    exists w'. split; [assumption|]. split; [assumption|].
    split; [assumption|]. split; [eauto|].
    split; [intros i; now rewrite Hhas|]. split; [lia|].
    split; [assumption|]. intros _. assumption.
  - destruct (decide (ES_VERSION_0 = 7%Z)) as [H7|H7].
    2:{ rewrite create_mapping_other by tauto. exists w.
        split; [reflexivity|]. split; [reflexivity|]. split; [reflexivity|].
        split; [exists []; unfold sent_between; now rewrite app_nil_r|].
        split; [auto|]. split; [tauto|]. split; [auto|]. tauto. }
    set (pidx := _build_percolator_index_name index).
    destruct (has_index w pidx) eqn:Hx.
    + rewrite create_mapping_7_exists by assumption.
      assert (Hknown : truthy_opt mp || bool_decide (is_Some (assoc index mappings)) = true).
      { rewrite (bool_decide_eq_true_2 _ (Hreg (or_intror H7))). apply orb_true_r. }
      rewrite Hknown. eexists. split; [reflexivity|].
      split; [reflexivity|]. split; [reflexivity|]. split; [eexists; reflexivity|].
      split; [auto|]. split; [auto|]. split; [auto|]. tauto.
    + rewrite create_mapping_7 by assumption.
      assert (Hresolved : exists path,
        (if truthy_opt mp then ret (default EmptyString mp)
         else mappings_subscript index) w = Done path w /\
        mapping_ok path = true).
      { destruct mp as [p|]; simpl.
        - destruct (truthy p).
          + exists p. split; [reflexivity|]. now apply Hpath.
          + destruct (Hreg (or_intror H7)) as [path Hassoc].
            exists path. unfold mappings_subscript. rewrite Hassoc.
            split; [reflexivity|].
            eapply loadable_path; [auto|]. apply assoc_elem, Hassoc.
        - destruct (Hreg (or_intror H7)) as [path Hassoc].
          exists path. unfold mappings_subscript. rewrite Hassoc.
          split; [reflexivity|].
          eapply loadable_path; [auto|]. apply assoc_elem, Hassoc. }
      destruct Hresolved as (path & Hres & Hok).
      unfold bind at 1. rewrite Hres.
      unfold indices_exists. run. fold pidx.
      change (has_index (log (Indices_exists pidx) w) pidx) with (has_index w pidx).
      rewrite Hx. simpl.
      unfold mapping_ok in Hok.
      destruct (update_mapping_properties (mapping_file path)) as [e|m];
        [discriminate|].
      destruct (create_run pidx m (log (Indices_exists pidx) w) Hx)
        as (w' & Hrun & Hsent & Hsets & Hcache & Hhas & Hdoc & Hprops).
      exists w'. split; [assumption|]. split; [assumption|].
      split; [assumption|].
      split; [exists [Indices_exists pidx; Indices_create pidx m];
              unfold sent_between in *; rewrite Hsent; simpl;
              now rewrite <- app_assoc|].
      split; [intros i Hi; rewrite Hhas; destruct (decide (i = pidx)); auto|].
      split; [intros _; rewrite Hhas; now destruct (decide (pidx = pidx))|].
      split; [assumption|]. tauto.
Qed.

(** A loop whose body keeps an invariant [I], establishes [Q x] for the
    element it handles and keeps what it established for the others. *)
Lemma for_each_invariant {A} (I : World -> Prop) (Q : A -> World -> Prop)
    (body : A -> M unit) (l : list A) :
  (forall x w, x ∈ l -> I w ->
     exists w', body x w = Done tt w' /\ I w' /\ Q x w' /\
                forall y, Q y w -> Q y w') ->
  forall w, I w ->
    exists w', for_each body l w = Done tt w' /\ I w' /\
               forall x, x ∈ l -> Q x w'.
Proof.
  induction l as [|x l IH]; intros Hstep w HI.
  - exists w. split; [reflexivity|]. split; [assumption|].
    intros x Hx. inversion Hx.
  - destruct (Hstep x w) as (w1 & Hrun & HI1 & HQ1 & Hkeep1);
      [left|assumption|].
    destruct (IH (fun y u Hy => Hstep y u (list_elem_of_further _ _ _ Hy)) w1 HI1)
      as (w2 & Hrun2 & HI2 & HQ2).
    assert (Hkeep : forall l' u u', (forall y u0, y ∈ l' -> I u0 ->
        exists u1, body y u0 = Done tt u1 /\ I u1 /\ Q y u1 /\
                   forall z, Q z u0 -> Q z u1) ->
      I u -> for_each body l' u = Done tt u' -> forall z, Q z u -> Q z u').
    { clear. induction l' as [|y l' IHl]; intros u u' Hs Hu Hr z Hz.
      - injection Hr as <-. assumption.
      - simpl in Hr. unfold bind in Hr.
        destruct (Hs y u) as (u1 & Hb & Hu1 & _ & Hk); [left|assumption|].
        rewrite Hb in Hr.
        eapply (IHl u1 u'); eauto.
        intros y' u0 Hy'. apply Hs. now right. }
    exists w2. split; [simpl; unfold bind; now rewrite Hrun|].
    split; [assumption|].
    intros y Hy. apply elem_of_cons in Hy as [->|Hy]; [|auto].
    eapply (Hkeep l w1 w2); eauto.
    intros y' u0 Hy'. apply Hstep. now right.
Qed.

Lemma ready_mono (index : string) (w w' : World) :
  (forall i, has_index w i = true -> has_index w' i = true) ->
  ready index w -> ready index w'.
Proof.
  intros Hmono (Hcontent & Hreg & Hload). repeat split; auto.
Qed.

Lemma registry_ready_key (index path : string) (w : World) :
  registry_ready w -> (index, path) ∈ mappings -> ready index w.
Proof.
  intros Hready Hin. apply Hready.
  apply list_elem_of_fmap. exists (index, path). auto.
Qed.

(** One round of the loop of [_new_percolator]. *)
Lemma new_percolator_step (spec : string) (query : json) (index path : string)
    (w : World) :
  ready index w -> (index, path) ∈ mappings ->
  exists w',
    (let! percolator_doc_type := _get_percolator_doc_type index in
     _create_percolator_mapping index percolator_doc_type (Some path) >>>
     client_index (_build_percolator_index_name index) percolator_doc_type
       ("oaiset-" ++ spec) (JObj [("query", query)])) w = Done tt w' /\
    (forall i, has_index w i = true -> has_index w' i = true) /\
    (forall i j, doc_at w' i j =
       if decide (i = _build_percolator_index_name index /\ j = "oaiset-" ++ spec)
       then Some (JObj [("query", query)]) else doc_at w i j).
Proof.
  intros Hready Hin.
  destruct (get_doc_type_run index w) as (dt & Hdt); [apply Hready|].
  destruct (create_mapping_run index dt (Some path) w Hready)
    as (w1 & Hrun1 & _ & _ & _ & Hhas1 & _ & Hdoc1 & _).
  { intros H7 p [= <-]. eapply loadable_path; [now apply Hready|exact Hin]. }
  destruct (client_index_run (_build_percolator_index_name index) dt
              ("oaiset-" ++ spec) (JObj [("query", query)]) w1)
    as (w2 & Hrun2 & _ & _ & _ & Hhas2 & Hdoc2 & _).
  exists w2. split; [unfold bind; now rewrite Hdt, Hrun1|].
  split.
  - intros i Hi. rewrite Hhas2. destruct (decide _); auto.
  - intros i j. rewrite Hdoc2. destruct (decide _); auto.
Qed.

(** One round of the loop of [_delete_percolator]. *)
Lemma delete_percolator_step (spec index : string) (w : World) :
  ready index w ->
  exists w',
    (let! percolator_doc_type := _get_percolator_doc_type index in
     _create_percolator_mapping index percolator_doc_type None >>>
     client_delete (_build_percolator_index_name index) percolator_doc_type
       ("oaiset-" ++ spec) [404%Z]) w = Done tt w' /\
    (forall i, has_index w i = true -> has_index w' i = true) /\
    (ES_VERSION_0 = 7%Z ->
     has_index w' (_build_percolator_index_name index) = true) /\
    (forall i j, doc_at w' i j =
       if decide (i = _build_percolator_index_name index /\ j = "oaiset-" ++ spec)
       then None else doc_at w i j) /\
    ((ES_VERSION_0 = 5 \/ ES_VERSION_0 = 6)%Z ->
     forall i, props_at w' i =
       if decide (i = index)
       then (fun p => dict_update p (properties_of PERCOLATOR_MAPPING)) <$>
              props_at w i
       else props_at w i).
Proof.
  intros Hready.
  destruct (get_doc_type_run index w) as (dt & Hdt); [apply Hready|].
  destruct (create_mapping_run index dt None w Hready)
    as (w1 & Hrun1 & _ & _ & _ & Hhas1 & Hpidx1 & Hdoc1 & Hprops1).
  { intros _ p [=]. }
  destruct (client_delete_run (_build_percolator_index_name index) dt
              ("oaiset-" ++ spec) w1)
    as (w2 & Hrun2 & _ & _ & _ & Hhas2 & Hdoc2 & Hprops2 & _).
  exists w2. split; [unfold bind; now rewrite Hdt, Hrun1|].
  split; [intros i Hi; rewrite Hhas2; auto|].
  split; [intros H7; rewrite Hhas2; auto|].
  split.
  - intros i j. rewrite Hdoc2. destruct (decide _); auto.
  - intros Hv i. rewrite Hprops2. auto.
Qed.

(** Once [settled], a round of the loop of [_delete_percolator] leaves the
    engine alone. *)
Lemma delete_percolator_step_settled (spec index : string) (w : World) :
  settled spec index w ->
  exists w',
    (let! percolator_doc_type := _get_percolator_doc_type index in
     _create_percolator_mapping index percolator_doc_type None >>>
     client_delete (_build_percolator_index_name index) percolator_doc_type
       ("oaiset-" ++ spec) [404%Z]) w = Done tt w' /\
    indices w' = indices w.
Proof.
  intros (Hready & Hprops & Hpidx & Hgone).
  destruct (get_doc_type_run index w) as (dt & Hdt); [apply Hready|].
  destruct (create_mapping_run index dt None w Hready)
    as (w1 & Hrun1 & _ & _ & _ & Hhas1 & _ & Hdoc1 & Hprops1).
  { intros _ p [=]. }
  assert (Hsame : indices w1 = indices w).
  { destruct (decide (ES_VERSION_0 = 5 \/ ES_VERSION_0 = 6)%Z) as [Hv|Hv].
    - rewrite create_mapping_56 in Hrun1 by assumption.
      destruct Hready as (Hcontent & _).
      destruct (put_mapping_run index dt PERCOLATOR_MAPPING w (Hcontent Hv))
        as (w1' & Hrun1' & _ & _ & _ & Hhas & Hdoc & Hp).
      rewrite Hrun1 in Hrun1'. injection Hrun1' as <-.
      apply indices_ext; [assumption| |assumption].
      intros i. rewrite Hp. destruct (decide (i = index)) as [->|]; [|reflexivity].
      destruct (Hprops Hv) as (p & Hpw & Hsat). rewrite Hpw.
      exact (f_equal Some Hsat).
    - destruct (decide (ES_VERSION_0 = 7%Z)) as [H7|H7].
      + rewrite create_mapping_7_exists in Hrun1 by auto.
        destruct (truthy_opt None || bool_decide (is_Some (assoc index mappings)));
          [|discriminate].
        injection Hrun1 as <-. reflexivity.
      + rewrite create_mapping_other in Hrun1 by tauto.
        injection Hrun1 as <-. reflexivity. }
  destruct (client_delete_run (_build_percolator_index_name index) dt
              ("oaiset-" ++ spec) w1)
    as (w2 & Hrun2 & _ & _ & _ & _ & _ & _ & Hnoop).
  exists w2. split; [unfold bind; now rewrite Hdt, Hrun1|].
  rewrite Hnoop; [assumption|]. now rewrite Hdoc1.
Qed.

Lemma settled_same_engine (spec index : string) (w w' : World) :
  indices w' = indices w -> settled spec index w -> settled spec index w'.
Proof.
  intros Heq. unfold settled, ready, has_index, props_at, doc_at.
  now rewrite Heq.
Qed.

Lemma delete_percolator_loop_settled (spec : string) (l : list string) (w : World) :
  (forall index, index ∈ l -> settled spec index w) ->
  exists w',
    for_each (fun index =>
      let! percolator_doc_type := _get_percolator_doc_type index in
      _create_percolator_mapping index percolator_doc_type None >>>
      client_delete (_build_percolator_index_name index) percolator_doc_type
        ("oaiset-" ++ spec) [404%Z]) l w = Done tt w' /\
    indices w' = indices w.
Proof.
  revert w. induction l as [|index l IH]; intros w Hall.
  - exists w. split; reflexivity.
  - destruct (delete_percolator_step_settled spec index w) as (w1 & Hrun1 & Heq1);
      [apply Hall; left|].
    destruct (IH w1) as (w2 & Hrun2 & Heq2).
    { intros i Hi. apply (settled_same_engine _ _ w); [assumption|].
      apply Hall. now right. }
    exists w2. split; [simpl; unfold bind at 1; now rewrite Hrun1|congruence].
Qed.

(** The whole loop of [_delete_percolator], from a ready registry. *)
Lemma delete_percolator_loop (spec : string) (w : World) :
  registry_ready w ->
  exists w',
    for_each (fun index =>
      let! percolator_doc_type := _get_percolator_doc_type index in
      _create_percolator_mapping index percolator_doc_type None >>>
      client_delete (_build_percolator_index_name index) percolator_doc_type
        ("oaiset-" ++ spec) [404%Z]) (map fst mappings) w = Done tt w' /\
    (forall i j, j <> "oaiset-" ++ spec -> doc_at w' i j = doc_at w i j) /\
    (forall index, index ∈ map fst mappings -> settled spec index w').
Proof.
  intros Hready.
  destruct (for_each_invariant
    (fun u => registry_ready u /\
              forall i j, j <> "oaiset-" ++ spec -> doc_at u i j = doc_at w i j)
    (fun index u => index ∈ map fst mappings /\ settled spec index u)
    (fun index =>
      let! percolator_doc_type := _get_percolator_doc_type index in
      _create_percolator_mapping index percolator_doc_type None >>>
      client_delete (_build_percolator_index_name index) percolator_doc_type
        ("oaiset-" ++ spec) [404%Z])
    (map fst mappings)) with (w := w) as (w' & Hrun & [_ Hframe] & Hpost).
  - intros index u Hin [Hu Hfr].
    destruct (delete_percolator_step spec index u (Hu index Hin))
      as (u' & Hrun & Hhas & Hpidx & Hdoc & Hprops).
    exists u'. split; [assumption|].
    assert (Hready' : registry_ready u').
    { intros i Hi. eapply ready_mono; [exact Hhas|auto]. }
    split; [split; [assumption|]|].
    { intros i j Hj. rewrite Hdoc. destruct (decide _) as [[_ ->]|]; [done|auto]. }
    assert (Hkeep : forall y, y ∈ map fst mappings ->
      ((ES_VERSION_0 = 5 \/ ES_VERSION_0 = 6)%Z ->
       exists p, props_at u y = Some p /\
                 dict_update p (properties_of PERCOLATOR_MAPPING) = p) \/ y = index ->
      (ES_VERSION_0 = 7%Z -> has_index u (_build_percolator_index_name y) = true)
        \/ y = index ->
      doc_at u (_build_percolator_index_name y) ("oaiset-" ++ spec) = None
        \/ y = index ->
      settled spec y u').
    { intros y Hy Hp7 Hx7 Hgone. split; [auto|]. split; [|split].
      - intros Hv. rewrite (Hprops Hv).
        destruct (decide (y = index)) as [->|Hne].
        + destruct (Hu index Hin) as (Hcontent & _).
          apply has_index_true in Hcontent as [ix Hix]; [|assumption].
          unfold props_at. rewrite Hix. simpl. eexists. split; [reflexivity|].
          apply percolator_properties_twice.
        + destruct Hp7 as [Hp7|]; [auto|done].
      - intros H7. destruct Hx7 as [Hx7| ->]; auto.
      - rewrite Hdoc. destruct (decide _) as [|Hn]; [reflexivity|].
        destruct Hgone as [Hgone| ->]; [assumption|]. tauto. }
    split.
    + split; [assumption|]. apply Hkeep; auto.
    + intros y [Hy (_ & Hyp & Hyx & Hyd)]. split; [assumption|].
      apply Hkeep; auto.
  - split; [assumption|auto].
  - exists w'. split; [assumption|]. split; [assumption|].
    intros index Hin. now apply Hpost.
Qed.

(** The whole loop of [_new_percolator], from a ready registry. *)
Lemma new_percolator_loop (spec : string) (query : json) (w : World) :
  registry_ready w ->
  exists w',
    for_each (fun '(index, mapping_path) =>
      let! percolator_doc_type := _get_percolator_doc_type index in
      _create_percolator_mapping index percolator_doc_type (Some mapping_path) >>>
      client_index (_build_percolator_index_name index) percolator_doc_type
        ("oaiset-" ++ spec) (JObj [("query", query)])) mappings w = Done tt w' /\
    (forall i j, j <> "oaiset-" ++ spec -> doc_at w' i j = doc_at w i j) /\
    (forall index, index ∈ map fst mappings ->
       doc_at w' (_build_percolator_index_name index) ("oaiset-" ++ spec) =
       Some (JObj [("query", query)])).
Proof.
  intros Hready.
  destruct (for_each_invariant
    (fun u => registry_ready u /\
              forall i j, j <> "oaiset-" ++ spec -> doc_at u i j = doc_at w i j)
    (fun (x : string * string) u =>
       doc_at u (_build_percolator_index_name x.1) ("oaiset-" ++ spec) =
       Some (JObj [("query", query)]))
    (fun '(index, mapping_path) =>
      let! percolator_doc_type := _get_percolator_doc_type index in
      _create_percolator_mapping index percolator_doc_type (Some mapping_path) >>>
      client_index (_build_percolator_index_name index) percolator_doc_type
        ("oaiset-" ++ spec) (JObj [("query", query)]))
    mappings) with (w := w) as (w' & Hrun & [_ Hframe] & Hpost).
  - intros [index path] u Hin [Hu Hfr].
    destruct (new_percolator_step spec query index path u)
      as (u' & Hrun & Hhas & Hdoc); [eapply registry_ready_key; eauto|assumption|].
    exists u'. split; [assumption|]. split; [split|split].
    + intros i Hi. eapply ready_mono; [exact Hhas|auto].
    + intros i j Hj. rewrite Hdoc. destruct (decide _) as [[_ ->]|]; [done|auto].
    + simpl. rewrite Hdoc. destruct (decide _); [reflexivity|tauto].
    + intros y Hy. rewrite Hdoc. destruct (decide _); [reflexivity|assumption].
  - split; [assumption|auto].
  - exists w'. split; [assumption|]. split; [assumption|].
    intros index Hin. apply list_elem_of_fmap in Hin as ([i p] & -> & Hin).
    apply (Hpost (i, p)), Hin.
Qed.

(** *** The prefix of the document ids *)

Lemma startswith_app (p n : string) : startswith (p ++ n) p = true.
Proof.
  unfold startswith. induction p as [|c p IH].
  { change (String.prefix EmptyString n = true). now destruct n. }
  change (String.prefix (String c p) (String c (p ++ n)) = true). simpl.
  destruct (Ascii.ascii_dec c c); [assumption|done].
Qed.

Lemma string_drop_app (p n : string) : string_drop (String.length p) (p ++ n) = n.
Proof.
  induction p as [|c p IH]; [now destruct n|].
  change (string_drop (String.length p) (p ++ n) = n). assumption.
Qed.

Lemma startswith_split (s p : string) :
  startswith s p = true -> s = p ++ string_drop (String.length p) s.
Proof.
  unfold startswith. revert s. induction p as [|c p IH]; intros s.
  - intros _. now destruct s.
  - destruct s as [|c' s]; simpl; [discriminate|].
    destruct (Ascii.ascii_dec c c') as [->|]; [|discriminate].
    intros Hp. change (String c' s = String c' (p ++ string_drop (String.length p) s)).
    f_equal. now apply IH.
Qed.

Lemma percolated_names_spec (results : list hit) (name : string) :
  name ∈ percolated_names results <->
  exists h, h ∈ results /\ _id h = "oaiset-" ++ name.
Proof.
  unfold percolated_names. rewrite list_elem_of_In, in_flat_map. split.
  - intros (h & Hin & Hname). exists h. split; [now apply list_elem_of_In|].
    destruct (startswith (_id h) "oaiset-") eqn:Hp; [|destruct Hname].
    destruct Hname as [<-|[]]. now apply startswith_split in Hp.
  - intros (h & Hin & Hid). exists h. split; [now apply list_elem_of_In|].
    rewrite Hid, startswith_app, string_drop_app. now left.
Qed.

(** C1, amended: the id of a percolator document is ["oaiset-" + spec].
    The second loop of [get_record_sets] yields a name exactly for the
    hits whose id is ["oaiset-"] followed by the name, whatever the hits.
    From a ready registry (on versions 5 and 6 every registered content
    index exists, on version 7 the registered mapping files have their
    properties) and for a spec that is not empty, [_new_percolator] with a
    search pattern that is not empty goes through and leaves the
    translated query under that id in the percolator index of every
    registered index, touching no other id; and [_delete_percolator] goes
    through and leaves no document under that id in any of them, touching
    no other id. *)
Theorem percolator_id_convention (spec : string) (pattern : option string)
    (w : World) :
  (forall results name,
     name ∈ percolated_names results <->
     exists h, h ∈ results /\ _id h = "oaiset-" ++ name) /\
  (registry_ready w ->
   truthy spec = true ->
   (truthy_opt pattern = true ->
    exists w',
      _new_percolator spec pattern w = Done tt w' /\
      (forall index, index ∈ map fst mappings ->
         doc_at w' (_build_percolator_index_name index) ("oaiset-" ++ spec) =
         Some (JObj [("query", query_string_parser pattern)])) /\
      (forall i j, j <> "oaiset-" ++ spec -> doc_at w' i j = doc_at w i j)) /\
   (exists w',
      _delete_percolator spec pattern w = Done tt w' /\
      (forall index, index ∈ map fst mappings ->
         doc_at w' (_build_percolator_index_name index) ("oaiset-" ++ spec) = None) /\
      (forall i j, j <> "oaiset-" ++ spec -> doc_at w' i j = doc_at w i j))).
Proof.
  split; [apply percolated_names_spec|].
  intros Hready Hspec. split.
  - intros Hpattern. unfold _new_percolator. rewrite Hspec, Hpattern. simpl.
    destruct (new_percolator_loop spec (query_string_parser pattern) w Hready)
      as (w' & Hrun & Hframe & Hdoc).
    exists w'. auto.
  - unfold _delete_percolator. rewrite Hspec.
    destruct (delete_percolator_loop spec w Hready) as (w' & Hrun & Hframe & Hpost).
    exists w'. split; [assumption|]. split; [|assumption].
    intros index Hin. apply (Hpost index Hin).
Qed.

(** C6, amended: [_delete_percolator] with an empty spec does nothing.
    The delete request never raises for a document that is not there: the
    engine's 404 is swallowed by [ignore=[404]] and the engine is left as
    it was.  From a ready registry (on versions 5 and 6 every registered
    content index exists, on version 7 the registered mapping files have
    their properties) the call goes through whether or not the document
    exists, leaves no document under the id, and goes through again on the
    world it left, without changing the engine a second time. *)
Theorem delete_percolator_idempotent (spec : string) (pattern : option string)
    (w : World) :
  _delete_percolator EmptyString pattern w = Done tt w /\
  (forall index dt id u,
     doc_at u index id = None ->
     exists u', client_delete index dt id [404%Z] u = Done tt u' /\
                indices u' = indices u) /\
  (registry_ready w ->
   exists w1,
     _delete_percolator spec pattern w = Done tt w1 /\
     (truthy spec = true ->
      forall index, index ∈ map fst mappings ->
        doc_at w1 (_build_percolator_index_name index) ("oaiset-" ++ spec) = None) /\
     exists w2,
       _delete_percolator spec pattern w1 = Done tt w2 /\
       indices w2 = indices w1).
Proof.
  split; [reflexivity|]. split.
  - intros index dt id u Hgone.
    destruct (client_delete_run index dt id u)
      as (u' & Hrun & _ & _ & _ & _ & _ & _ & Hnoop).
    exists u'. auto.
  - intros Hready. unfold _delete_percolator. destruct (truthy spec) eqn:Hspec.
    + destruct (delete_percolator_loop spec w Hready) as (w1 & Hrun & _ & Hpost).
      exists w1. split; [assumption|].
      split; [intros _ index Hin; apply (Hpost index Hin)|].
      apply delete_percolator_loop_settled. assumption.
    + exists w. split; [reflexivity|]. split; [discriminate|].
      exists w. split; reflexivity.
Qed.

End Registry.

(** ** Searching and re-indexing *)

Section MatchEngine.
Context `{Env}.

Lemma world_of_bind_ret {A B} (m : M A) (f : A -> B) (w : World) :
  world_of ((let! x := m in ret (f x)) w) = world_of (m w).
Proof. unfold bind. now destruct (m w). Qed.


(** At most [size] hits come back. *)
Lemma client_search_size (index : string) (body : search_body) (size : nat)
    (ignore_unavailable : bool) (w w' : World) (hits : list hit) :
  client_search index body (Some size) ignore_unavailable w = Done hits w' ->
  length hits <= size.
Proof.
  unfold client_search. run.
  destruct (indices w !! index) as [ix|].
  - destruct (mapM _ _); [|discriminate]. unfold ret.
    intros [= <- _]. rewrite length_take. lia.
  - destruct ignore_unavailable; [|discriminate].
    intros [= <- _]. simpl. lia.
Qed.

Lemma matching_hits_elem (filters : list (string -> json -> bool))
    (ix : index_state) (h : hit) :
  h ∈ matching_hits filters ix <->
  ix_docs ix !! _id h = Some (_source h) /\
  forallb (fun f => f (_id h) (_source h)) filters = true.
Proof.
  unfold matching_hits. rewrite list_elem_of_fmap. split.
  - intros ([id body] & -> & Hin). simpl.
    apply elem_of_filter_bool in Hin as [Hin Hf].
    now apply elem_of_map_to_list in Hin.
  - intros [Hdoc Hf]. exists (_id h, _source h). split; [now destruct h|].
    apply elem_of_filter_bool. split; [|assumption].
    now apply elem_of_map_to_list.
Qed.

(** The loop of [index_sets]: one [index] request per set, in order. *)
Lemma index_sets_loop (pidx : string) (sets : list OAISet) (w : World) :
  exists w',
    for_each (fun set =>
      let query := query_string_parser (search_pattern set) in
      client_index pidx None (spec set) (JObj [("query", query)])) sets w
      = Done tt w' /\
    sent_between w w'
      (map (fun set => Index_document pidx None (spec set)
              (JObj [("query", query_string_parser (search_pattern set))])) sets) /\
    oaisets w' = oaisets w /\
    (forall i, has_index w i = true -> has_index w' i = true) /\
    (sets <> [] -> has_index w' pidx = true) /\
    (forall j, is_Some (doc_at w pidx j) -> is_Some (doc_at w' pidx j)) /\
    (forall set, set ∈ sets -> is_Some (doc_at w' pidx (spec set))).
Proof.
  revert w. induction sets as [|set sets IH]; intros w.
  - exists w. split; [reflexivity|].
    split; [unfold sent_between; now rewrite app_nil_r|].
    split; [reflexivity|]. split; [auto|]. split; [done|]. split; [auto|].
    intros set Hin. inversion Hin.
  - destruct (client_index_run pidx None (spec set)
                (JObj [("query", query_string_parser (search_pattern set))]) w)
      as (w1 & Hrun1 & Hsent1 & Hsets1 & _ & Hhas1 & Hdoc1 & _).
    destruct (IH w1) as (w2 & Hrun2 & Hsent2 & Hsets2 & Hhas2 & _ & Hkeep2 & Hdoc2).
    exists w2. split; [simpl; unfold bind at 1; now rewrite Hrun1|].
    split; [unfold sent_between in *; rewrite Hsent2, Hsent1; simpl;
            now rewrite <- app_assoc|].
    split; [congruence|].
    split; [intros i Hi; apply Hhas2; rewrite Hhas1; destruct (decide _); auto|].
    split; [intros _; apply Hhas2; rewrite Hhas1; now destruct (decide (pidx = pidx))|].
    split.
    + intros j Hj. apply Hkeep2. rewrite Hdoc1. destruct (decide _); eauto.
    + intros s Hin. apply elem_of_cons in Hin as [->|Hin]; [|auto].
      apply Hkeep2. rewrite Hdoc1. destruct (decide _); [eauto|tauto].
Qed.

(** From version 7 on, the call of [index_sets] without a document type
    is the plain [index]. *)
Lemma index_sets_loop_new_client (pidx : string) (sets : list OAISet) :
  ~ (ES_VERSION_0 < 7)%Z ->
  for_each (fun set =>
    let query := query_string_parser (search_pattern set) in
    client_index_without_doc_type pidx (spec set) (JObj [("query", query)])) sets =
  for_each (fun set =>
    let query := query_string_parser (search_pattern set) in
    client_index pidx None (spec set) (JObj [("query", query)])) sets.
Proof.
  intros Hv. apply Z.ltb_nlt in Hv.
  unfold client_index_without_doc_type. now rewrite Hv.
Qed.

(** Before version 7 the first round of the loop raises, with nothing
    sent. *)
Lemma index_sets_loop_old_client (pidx : string) (set : OAISet)
    (sets : list OAISet) (w : World) :
  (ES_VERSION_0 < 7)%Z ->
  for_each (fun set =>
    let query := query_string_parser (search_pattern set) in
    client_index_without_doc_type pidx (spec set) (JObj [("query", query)]))
    (set :: sets) w = Raised TypeError w.
Proof.
  intros Hv. apply Z.ltb_lt in Hv. simpl.
  unfold client_index_without_doc_type, bind. now rewrite Hv.
Qed.


Lemma percolate_query_after_index_sets (percolator_index : string)
    (percolator_ids : option (list string)) (documents : option (list json))
    (document_es_ids document_es_indices : option (list string))
    (w w1 : World) :
  index_sets w = Done tt w1 ->
  percolate_query percolator_index percolator_ids documents
    document_es_ids document_es_indices w =
  client_search percolator_index
    (create_percolate_query percolator_ids documents
       document_es_ids document_es_indices) (Some 20) false w1.
Proof.
  intros Hrun. unfold percolate_query, bind. rewrite Hrun.
  now destruct (client_search _ _ _ _ w1).
Qed.

Lemma percolate_query_size (percolator_index : string)
    (percolator_ids : option (list string)) (documents : option (list json))
    (document_es_ids document_es_indices : option (list string))
    (w w' : World) (hits : list hit) :
  percolate_query percolator_index percolator_ids documents
    document_es_ids document_es_indices w = Done hits w' ->
  length hits <= 20.
Proof.
  unfold percolate_query. unfold bind at 1.
  destruct (index_sets w) as [[] w1|]; [|discriminate].
  unfold bind.
  destruct (client_search _ _ _ _ w1) as [hits' w2|] eqn:Hsearch; [|discriminate].
  intros [= <- _]. eapply client_search_size, Hsearch.
Qed.

End MatchEngine.

(** ** Matching through [percolate_query] *)

Section PercolateQuery.
Context `{Env}.




End PercolateQuery.

(** ** The module at work on the small installation *)

Section Runs.
Import Demo.

Lemma env7_registry_ready (w : World) : @registry_ready env7 w.
Proof.
  intros index Hin. split; [|split].
  - intros [Hv|Hv]; discriminate Hv.
  - intros _. now apply assoc_keys.
  - intros _. repeat constructor.
Qed.


(** C1, as stated, fails: the document of set ["a"] is written under
    ["oaiset-a"], nothing is written under ["set-a"], and a hit whose id
    is ["set-a"] yields no name. *)
Lemma percolator_id_is_not_set_prefixed :
  let w' := world_of (@_new_percolator env7 "a" (Some "physics") w_pattern) in
  doc_at w' "rdmrecords-records-record-v4.0.0-percolators" "set-a" = None /\
  doc_at w' "rdmrecords-records-record-v4.0.0-percolators" "oaiset-a" =
    Some (JObj [("query", JStr "physics")]) /\
  percolated_names [ {| _id := "set-a"; _source := JNull |} ] = [] /\
  percolated_names [ {| _id := "oaiset-a"; _source := JNull |} ] = ["a"].
Proof. repeat split; vm_compute; reflexivity. Qed.

Lemma percolator_id_convention_witness :
  exists w',
    @_new_percolator env7 "a" (Some "physics") w_pattern = Done tt w' /\
    doc_at w' (@_build_percolator_index_name env7 rdm) "oaiset-a" =
      Some (JObj [("query", JStr "physics")]).
Proof.
  destruct (@percolator_id_convention env7 "a" (Some "physics") w_pattern)
    as [_ Hregistry].
  destruct (Hregistry (env7_registry_ready w_pattern) eq_refl) as [Hnew _].
  destruct (Hnew eq_refl) as (w' & Hrun & Hdoc & _).
  exists w'. split; [exact Hrun|]. apply (Hdoc rdm). left.
Defined.



(** C3 holds of [_new_percolator] and fails of [index_sets]: for the
    static set ["curated"], [_new_percolator] does nothing, but
    [index_sets], which every [percolate_query] runs first, writes a
    percolator document under the id ["curated"]. *)
Theorem index_sets_writes_static_set :
  search_pattern_is_None {| spec := "curated"; search_pattern := None |} = true /\
  @_new_percolator env7 "curated" None w_static = Done tt w_static /\
  doc_at (world_of (@index_sets env7 w_static))
    "rdmrecords-records-record-v4.0.0-percolators" "curated" =
    Some (JObj [("query", @query_string_parser env7 None)]) /\
  requests (world_of (@record_in_set env7 physics_record "curated" w_static)) =
    [ OAISet_query false;
      Indices_exists "rdmrecords-records-record-v4.0.0-percolators";
      Indices_create "rdmrecords-records-record-v4.0.0-percolators"
        (JObj [("mappings",
                JObj [("properties",
                       JObj [("title", JObj [("type", JStr "text")]);
                             ("query", JObj [("type", JStr "percolator")])])])]);
      Index_document "rdmrecords-records-record-v4.0.0-percolators" None
        "curated" (JObj [("query", JNull)]);
      Search_request "rdmrecords-records-record-v4.0.0-percolators"
        (Bool_must [Percolate_documents [physics_record]; Ids ["curated"]])
        (Some 20) ].
Proof. repeat split; vm_compute; reflexivity. Qed.

(** C4, as stated, fails: the set ["e"] has the empty string for search
    pattern, which [_new_percolator] takes for no pattern, and
    [_build_cache] does not return it. *)
Lemma build_cache_skips_empty_pattern :
  exists w',
    _build_cache w_empty_pattern = Done [] w' /\
    oaisets w_empty_pattern = [ {| spec := "e"; search_pattern := Some EmptyString |} ] /\
    truthy_opt (Some EmptyString) = false.
Proof. eexists. split; [vm_compute; reflexivity|]. split; reflexivity. Qed.

Lemma build_cache_memoizes_witness :
  exists names w1,
    _build_cache w_static = Done names w1 /\ names = ["curated"] /\
    _build_cache w1 = Done names w1.
Proof.
  destruct (build_cache_memoizes w_static eq_refl)
    as (names & w1 & Hrun & Hnames & _ & Hcache & _ & Hagain).
  exists names, w1. split; [exact Hrun|]. split; [exact Hnames|].
  apply Hagain, Hcache.
Defined.

Lemma static_step_is_intersection_witness :
  exists static w',
    @get_record_sets_static env7 physics_record w_static = Done static w' /\
    "curated" ∈ static.
Proof.
  destruct (@static_step_is_intersection env7 physics_record w_static)
    as (cache & static & w' & _ & Hrun & _ & Hnone & _).
  exists static, w'. split; [exact Hrun|].
  apply (Hnone eq_refl). split.
  - exists {| spec := "curated"; search_pattern := None |}.
    split; [left|split; reflexivity].
  - left.
Defined.

Lemma delete_percolator_idempotent_witness :
  exists w1 w2,
    @_delete_percolator env7 "a" (Some "physics") w_pattern = Done tt w1 /\
    @_delete_percolator env7 "a" (Some "physics") w1 = Done tt w2 /\
    indices w2 = indices w1.
Proof.
  destruct (@delete_percolator_idempotent env7 "a" (Some "physics") w_pattern)
    as (_ & _ & Hready).
  destruct (Hready (env7_registry_ready w_pattern))
    as (w1 & Hrun1 & _ & w2 & Hrun2 & Heq).
  exists w1, w2. split; [exact Hrun1|]. split; [exact Hrun2|exact Heq].
Defined.

(** C7, as stated, fails on engine version 5: the derived percolator index
    is the content index itself, it exists, and the call still changes it,
    adding the percolator field to its mapping. *)
Lemma create_percolator_mapping_changes_mapping :
  let w' := world_of (@_create_percolator_mapping env5 rdm
                        (Some "percolators") None w_content_index) in
  has_index w_content_index (@_build_percolator_index_name env5 rdm) = true /\
  props_at w_content_index rdm = Some [] /\
  props_at w' rdm = Some [("query", JObj [("type", JStr "percolator")])] /\
  indices w' <> indices w_content_index.
Proof.
  split; [vm_compute; reflexivity|]. split; [vm_compute; reflexivity|].
  split; [vm_compute; reflexivity|].
  intros Heq. apply (f_equal (fun m => ix_properties <$> m !! rdm)) in Heq.
  vm_compute in Heq. discriminate Heq.
Qed.

Lemma create_percolator_mapping_idempotent_witness :
  let w1 := world_of (@_create_percolator_mapping env7 rdm None None w_pattern) in
  indices (world_of (@_create_percolator_mapping env7 rdm None None w1)) =
  indices w1.
Proof.
  intros w1.
  destruct (@create_percolator_mapping_idempotent env7 rdm None None w1)
    as (Hexists & _ & _).
  apply Hexists; [discriminate|discriminate|vm_compute; reflexivity].
Defined.


(** C9: [percolate_query], and with it [find_sets_for_record], returns at
    most 20 hits; with 21 sets in the table whose queries all match the
    record, [find_sets_for_record] returns 20 of them and leaves ["p"]
    out. *)
Theorem percolate_query_at_most_20 :
  (forall (E : Env) percolator_index percolator_ids documents
          document_es_ids document_es_indices w hits w',
     @percolate_query E percolator_index percolator_ids documents
       document_es_ids document_es_indices w = Done hits w' ->
     length hits <= 20) /\
  (forall (E : Env) record w names w',
     @find_sets_for_record E record w = Done names w' ->
     length names <= 20) /\
  (exists names w',
     @find_sets_for_record env7 physics_record w_many = Done names w' /\
     length names = 20 /\
     length (oaisets w_many) = 21 /\
     NoDup (map spec (oaisets w_many)) /\
     Forall (fun s => @percolates env7
                        (@query_string_parser env7 (search_pattern s))
                        physics_record = true) (oaisets w_many) /\
     "p" ∈ map spec (oaisets w_many) /\
     "p" ∉ names).
Proof.
  split; [|split].
  - intros E. intros. eapply percolate_query_size. eassumption.
  - intros E record w names w'. unfold find_sets_for_record.
    unfold bind at 1.
    destruct (percolate_query _ _ _ _ _ w) as [hits w1|] eqn:Hq; [|discriminate].
    intros [= <- _]. rewrite length_map. eapply percolate_query_size, Hq.
  - eexists _, _. split; [vm_compute; reflexivity|].
    split; [reflexivity|]. split; [reflexivity|].
    repeat split;
      match goal with |- ?P => apply (bool_decide_unpack P) end;
      vm_compute; exact I.
Qed.

Lemma percolate_query_at_most_20_witness :
  exists names w',
    @find_sets_for_record env7 physics_record w_pattern = Done names w' /\
    length names <= 20.
Proof.
  eexists _, _. split; [vm_compute; reflexivity|].
  destruct percolate_query_at_most_20 as (_ & Hfind & _).
  eapply (Hfind env7 physics_record w_pattern). vm_compute. reflexivity.
Defined.

End Runs.

(** * Further properties of the module *)

(** ** What the index manager leaves alone *)

Ltac split_all := repeat match goal with |- _ /\ _ => split end.

Section Frames.
Context `{Env}.

Lemma dict_get_set_eq (k : string) (v : json) (d : dict) :
  dict_get k (dict_set k v d) = Some v.
Proof.
  induction d as [|[k' v'] d IH]; simpl.
  - now rewrite String.eqb_refl.
  - destruct (String.eqb k' k) eqn:Hk; simpl; now rewrite Hk.
Qed.

Lemma dict_get_set_ne (k k' : string) (v : json) (d : dict) :
  k' <> k -> dict_get k' (dict_set k v d) = dict_get k' d.
Proof.
  intros Hne. induction d as [|[k0 v0] d IH]; simpl.
  - apply not_eq_sym, String.eqb_neq in Hne. now rewrite Hne.
  - destruct (String.eqb k0 k) eqn:Hk; simpl.
    + apply String.eqb_eq in Hk as ->.
      apply not_eq_sym, String.eqb_neq in Hne. now rewrite Hne.
    + destruct (String.eqb k0 k'); [reflexivity|assumption].
Qed.

Lemma update_mapping_properties_error (mapping : json) (e : exn) :
  update_mapping_properties mapping = inl e -> e <> RequestError.
Proof.
  unfold update_mapping_properties.
  repeat case_match; intros Heq; simplify_eq; discriminate.
Qed.

(** Whatever its outcome, [_create_percolator_mapping] touches no
    document, no table row and no cache entry, removes no index, and when
    it raises it leaves the engine as it found it. *)
Lemma create_mapping_outcome (index : string) (dt mp : option string) (w : World) :
  let o := _create_percolator_mapping index dt mp w in
  oaisets (world_of o) = oaisets w /\
  current_oaiserver_sets (world_of o) = current_oaiserver_sets w /\
  (forall i j, doc_at (world_of o) i j = doc_at w i j) /\
  (forall i, has_index w i = true -> has_index (world_of o) i = true) /\
  (forall i, i <> _build_percolator_index_name index ->
     has_index (world_of o) i = has_index w i) /\
  (forall e w', o = Raised e w' -> indices w' = indices w /\ e <> RequestError).
Proof.
  cbv zeta.
  destruct (decide (ES_VERSION_0 = 5 \/ ES_VERSION_0 = 6)%Z) as [Hv|Hv].
  - rewrite create_mapping_56 by assumption.
    destruct (has_index w index) eqn:Hx.
    + destruct (put_mapping_run index dt PERCOLATOR_MAPPING w Hx)
        as (w' & Hrun & _ & Hsets & Hcache & Hhas & Hdoc & _).
      rewrite Hrun. simpl. split_all; auto; try discriminate.
      intros i Hi. now rewrite Hhas.
    + rewrite put_mapping_missing by assumption. simpl.
      split_all; auto; intros e w' [= <- <-]; split; [reflexivity|discriminate].
  - destruct (decide (ES_VERSION_0 = 7%Z)) as [H7|H7].
    2:{ rewrite create_mapping_other by tauto. simpl.
        split_all; auto; discriminate. }
    rewrite create_mapping_7 by assumption.
    set (pidx := _build_percolator_index_name index).
    assert (Hstep : forall path,
      let o := (let! there := indices_exists pidx in
                if negb there then
                  let! mapping := lift (update_mapping_properties (mapping_file path)) in
                  indices_create pidx mapping
                else ret tt) w in
      oaisets (world_of o) = oaisets w /\
      current_oaiserver_sets (world_of o) = current_oaiserver_sets w /\
      (forall i j, doc_at (world_of o) i j = doc_at w i j) /\
      (forall i, has_index w i = true -> has_index (world_of o) i = true) /\
      (forall i, i <> pidx -> has_index (world_of o) i = has_index w i) /\
      (forall e w', o = Raised e w' -> indices w' = indices w /\ e <> RequestError)).
    { intros path. cbv zeta. unfold indices_exists. run.
      change (has_index (log (Indices_exists pidx) w) pidx) with (has_index w pidx).
      destruct (has_index w pidx) eqn:Hx; simpl.
      - split_all; auto; discriminate.
      - destruct (update_mapping_properties (mapping_file path)) as [e|m] eqn:Hupd;
          simpl.
        + split_all; auto; intros e' w' [= <- <-]; split; [reflexivity|].
          eapply update_mapping_properties_error, Hupd.
        + destruct (create_run pidx m (log (Indices_exists pidx) w) Hx)
            as (w' & Hrun & _ & Hsets & Hcache & Hhas & Hdoc & _).
          rewrite Hrun. simpl. split_all; auto; try discriminate.
          * intros i Hi. rewrite Hhas. destruct (decide _); auto.
          * intros i Hi. rewrite Hhas. destruct (decide _); [done|auto]. }
    unfold bind at 1.
    destruct (truthy_opt mp); [apply Hstep|].
    unfold mappings_subscript. destruct (assoc index mappings) as [path|].
    + apply Hstep.
    + simpl. split_all; auto; intros e w' [= <- <-]; split; [reflexivity|discriminate].
Qed.

(** Whatever its outcome, [_create_percolator_mapping] leaves every
    index other than the derived percolator index exactly as it is. *)
Lemma create_mapping_other_indices (index : string) (dt mp : option string)
    (w : World) (i : string) :
  i <> _build_percolator_index_name index ->
  indices (world_of (_create_percolator_mapping index dt mp w)) !! i =
  indices w !! i.
Proof.
  intros Hi.
  destruct (decide (ES_VERSION_0 = 5 \/ ES_VERSION_0 = 6)%Z) as [Hv|Hv].
  - rewrite create_mapping_56 by assumption.
    rewrite percolator_index_name_old in Hi by lia.
    unfold indices_put_mapping. run.
    destruct (indices w !! index) as [ix|]; simpl; [|reflexivity].
    now apply lookup_insert_ne.
  - destruct (decide (ES_VERSION_0 = 7%Z)) as [H7|H7];
      [|rewrite create_mapping_other by tauto; reflexivity].
    rewrite create_mapping_7 by assumption.
    set (pidx := _build_percolator_index_name index) in *.
    assert (Hstep : forall path,
      indices (world_of
        ((let! there := indices_exists pidx in
          if negb there then
            let! mapping := lift (update_mapping_properties (mapping_file path)) in
            indices_create pidx mapping
          else ret tt) w)) !! i = indices w !! i).
    { intros path. unfold indices_exists. run.
      change (has_index (log (Indices_exists pidx) w) pidx) with (has_index w pidx).
      destruct (has_index w pidx) eqn:Hx; simpl; [reflexivity|].
      destruct (update_mapping_properties (mapping_file path)) as [e|m]; simpl;
        [reflexivity|].
      unfold indices_create. run.
      change (has_index (log (Indices_create pidx m) (log (Indices_exists pidx) w)) pidx)
        with (has_index w pidx).
      rewrite Hx. simpl. now apply lookup_insert_ne. }
    unfold bind at 1.
    destruct (truthy_opt mp); [apply Hstep|].
    unfold mappings_subscript. destruct (assoc index mappings) as [path|];
      [apply Hstep|reflexivity].
Qed.

(** [_get_percolator_doc_type] either returns or raises [KeyError]; the
    world is the same afterwards. *)
Lemma get_doc_type_outcome (index : string) (w : World) :
  (exists dt, _get_percolator_doc_type index w = Done dt w) \/
  (_get_percolator_doc_type index w = Raised (KeyError index) w /\
   (ES_VERSION_0 = 6 \/ ES_VERSION_0 = 7)%Z /\ assoc index mappings = None).
Proof.
  unfold _get_percolator_doc_type, mappings_subscript.
  repeat case_bool_decide; run; eauto.
  destruct (assoc index mappings) as [path|]; run.
  - left. destruct (schema_to_index path). eauto.
  - right. auto.
Qed.

End Frames.

(** ** Matching through [_percolate_query] *)

Section RecordSets.
Context `{Env}.

Lemma matching_hits_length (filters : list (string -> json -> bool))
    (ix : index_state) :
  length (matching_hits filters ix) <= size (ix_docs ix).
Proof.
  unfold matching_hits. rewrite length_map, <- length_map_to_list.
  apply List.filter_length_le.
Qed.

Lemma take_all_hits (n : nat) (filters : list (string -> json -> bool))
    (ix : index_state) :
  size (ix_docs ix) <= n ->
  take n (matching_hits filters ix) = matching_hits filters ix.
Proof.
  intros Hn. apply take_ge. pose proof (matching_hits_length filters ix). lia.
Qed.

Lemma elem_of_take_full {A} (n : nat) (l : list A) (x : A) :
  x ∈ take n l -> x ∈ l.
Proof. apply subseteq_take. Qed.

Lemma known_version_cases :
  known_version ->
  ((ES_VERSION_0 = 2 \/ ES_VERSION_0 = 5)%Z \/
   ((ES_VERSION_0 = 6 \/ ES_VERSION_0 = 7)%Z /\
    ~ (ES_VERSION_0 = 2 \/ ES_VERSION_0 = 5)%Z)).
Proof. unfold known_version. lia. Qed.

(** [_percolate_query] always returns and leaves the engine alone.  On a
    known version its hits are documents of the percolator index whose
    stored query percolates the document; none when the index is missing;
    at most ten on versions 6 and 7; and all of them when the page is
    large enough for the index. *)
Lemma legacy_percolate_run (index doc_type : string) (pdt : option string)
    (document : json) (w : World) :
  exists r w',
    _percolate_query index doc_type pdt document w = Done r w' /\
    indices w' = indices w /\ oaisets w' = oaisets w /\
    current_oaiserver_sets w' = current_oaiserver_sets w /\
    (~ known_version -> r = None /\ w' = w) /\
    (known_version ->
     exists hits, r = Some hits /\
       (forall h, h ∈ hits ->
          doc_at w (_build_percolator_index_name index) (_id h) = Some (_source h) /\
          stored_query_matches [document] (_source h) = true) /\
       (has_index w (_build_percolator_index_name index) = false -> hits = []) /\
       ((ES_VERSION_0 = 6 \/ ES_VERSION_0 = 7)%Z -> length hits <= 10) /\
       (forall ix, indices w !! _build_percolator_index_name index = Some ix ->
          ((ES_VERSION_0 = 2 \/ ES_VERSION_0 = 5)%Z \/ size (ix_docs ix) <= 10) ->
          forall id body, ix_docs ix !! id = Some body ->
            stored_query_matches [document] body = true ->
            {| _id := id; _source := body |} ∈ hits)).
Proof.
  unfold _percolate_query.
  set (pidx := _build_percolator_index_name index).
  set (f := fun (_ : string) (body : json) => stored_query_matches [document] body).
  assert (Hsound : forall ix h, indices w !! pidx = Some ix ->
            h ∈ matching_hits [f] ix ->
            doc_at w pidx (_id h) = Some (_source h) /\
            stored_query_matches [document] (_source h) = true).
  { intros ix h Hix Hin. apply matching_hits_elem in Hin as [Hdoc Hf].
    unfold doc_at. rewrite Hix. split; [assumption|].
    simpl in Hf. now rewrite andb_true_r in Hf. }
  assert (Hcomplete : forall ix id body, ix_docs ix !! id = Some body ->
            stored_query_matches [document] body = true ->
            {| _id := id; _source := body |} ∈ matching_hits [f] ix).
  { intros ix id body Hdoc Hm. apply matching_hits_elem. simpl.
    split; [assumption|]. unfold f. now rewrite Hm. }
  case_bool_decide as H25.
  - unfold client_percolate. run. fold pidx.
    destruct (indices w !! pidx) as [ix|] eqn:Hix; simpl;
      eexists _, _; (split; [reflexivity|]); split_all; try reflexivity.
    + intros Hn. exfalso. apply Hn. unfold known_version. lia.
    + intros _. eexists. split; [reflexivity|]. split_all.
      * intros h Hin. now apply (Hsound ix).
      * unfold has_index. rewrite Hix. discriminate.
      * lia.
      * intros ix' [= <-] _ id body. apply Hcomplete.
    + intros Hn. exfalso. apply Hn. unfold known_version. lia.
    + intros _. exists []. split; [reflexivity|]. split_all.
      * intros h Hin. inversion Hin.
      * reflexivity.
      * simpl. lia.
      * intros ix' [=].
  - case_bool_decide as H67.
    + unfold client_search. run. fold pidx.
      destruct (indices w !! pidx) as [ix|] eqn:Hix; simpl;
        eexists _, _; (split; [reflexivity|]); split_all; try reflexivity.
      * intros Hn. exfalso. apply Hn. unfold known_version. lia.
      * intros _. eexists. split; [reflexivity|]. split_all.
        -- intros h Hin. apply elem_of_take_full in Hin. now apply (Hsound ix).
        -- unfold has_index. rewrite Hix. discriminate.
        -- intros _. rewrite length_take. unfold default_size. lia.
        -- intros ix' [= <-] [Hv|Hsize] id body Hdoc Hm; [lia|].
           unfold default_size. rewrite take_all_hits by assumption.
           now apply Hcomplete.
      * intros Hn. exfalso. apply Hn. unfold known_version. lia.
      * intros _. exists []. split; [reflexivity|]. split_all.
        -- intros h Hin. inversion Hin.
        -- reflexivity.
        -- simpl. lia.
        -- intros ix' [=].
    + exists None, w. split; [reflexivity|]. split_all; try reflexivity.
      * auto.
      * intros Hk. exfalso. unfold known_version in Hk. lia.
Qed.

Lemma stored_query_matches_one (document body : json) :
  stored_query_matches [document] body = true <->
  exists q, jget "query" body = Some q /\ percolates q document = true.
Proof.
  unfold stored_query_matches. destruct (jget "query" body) as [q|]; simpl.
  - rewrite orb_false_r. split; [eauto|]. now intros (q' & [= <-] & Hq).
  - split; [discriminate|]. now intros (q' & [=] & _).
Qed.

Lemma same_docs_same_map (w w' : World) (i : string) (ix ix' : index_state) :
  (forall j, doc_at w' i j = doc_at w i j) ->
  indices w !! i = Some ix -> indices w' !! i = Some ix' ->
  ix_docs ix' = ix_docs ix.
Proof.
  intros Hdoc Hix Hix'. apply map_eq. intros j. specialize (Hdoc j).
  unfold doc_at in Hdoc. now rewrite Hix, Hix' in Hdoc.
Qed.

(** The second half of [get_record_sets], whatever its outcome: no
    document, table row or cache entry is touched and no index removed;
    the names it yields come from stored documents whose query percolates
    the dumped record; and it raises [KeyError] for an unregistered index
    on versions 6 and 7, [TypeError] on an unknown version. *)
Lemma percolated_outcome (record : json) (w : World) :
  let index := (record_to_index record).1 in
  let pidx := _build_percolator_index_name index in
  let o := get_record_sets_percolated record w in
  oaisets (world_of o) = oaisets w /\
  current_oaiserver_sets (world_of o) = current_oaiserver_sets w /\
  (forall i j, doc_at (world_of o) i j = doc_at w i j) /\
  (forall i, has_index w i = true -> has_index (world_of o) i = true) /\
  (forall names w', o = Done names w' ->
     forall name, name ∈ names ->
       exists body, doc_at w pidx ("oaiset-" ++ name) = Some body /\
                    stored_query_matches [record_dumps record] body = true) /\
  ((ES_VERSION_0 = 6 \/ ES_VERSION_0 = 7)%Z -> assoc index mappings = None ->
   o = Raised (KeyError index) w) /\
  (~ known_version -> o = Raised TypeError w).
Proof.
  cbv zeta. unfold get_record_sets_percolated.
  destruct (record_to_index record) as [index doc_type]. simpl.
  match goal with |- context [world_of (?p w)] => set (prog := p) end.
  destruct (get_doc_type_outcome index w) as [[dt Hdt]|(Hdt & Hv & Hreg)].
  2:{ assert (Ho : prog w = Raised (KeyError index) w)
        by (unfold prog, bind; now rewrite Hdt).
      rewrite Ho. simpl. split_all; auto; try discriminate.
      intros Hn. exfalso. apply Hn. unfold known_version. lia. }
  assert (Hnotreg : (ES_VERSION_0 = 6 \/ ES_VERSION_0 = 7)%Z ->
            assoc index mappings = None -> False).
  { intros Hv Hreg. unfold _get_percolator_doc_type, mappings_subscript in Hdt.
    revert Hdt. repeat case_bool_decide; try lia; run; rewrite Hreg; discriminate. }
  pose proof (create_mapping_outcome index dt None w)
    as (Hsets1 & Hcache1 & Hdoc1 & Hhas1 & _ & Hraise1).
  destruct (_create_percolator_mapping index dt None w) as [[] w1|e w1] eqn:Hrun1;
    simpl in *.
  2:{ assert (Ho : prog w = Raised e w1)
        by (unfold prog, bind; now rewrite Hdt, Hrun1).
      rewrite Ho. simpl.
      split_all; auto; try discriminate; try (intros; exfalso; eauto; fail).
      intros Hn. exfalso.
      rewrite create_mapping_other in Hrun1; [discriminate| | |];
        unfold known_version in Hn; lia. }
  destruct (legacy_percolate_run index doc_type dt (record_dumps record) w1)
    as (r & w2 & Hrun2 & Hidx2 & Hsets2 & Hcache2 & Hunknown & Hknown).
  assert (Hdoc2 : forall i j, doc_at w2 i j = doc_at w i j).
  { intros i j. unfold doc_at at 1. rewrite Hidx2. apply Hdoc1. }
  assert (Hhas2 : forall i, has_index w i = true -> has_index w2 i = true).
  { intros i Hi. unfold has_index. rewrite Hidx2. apply Hhas1, Hi. }
  destruct (decide known_version) as [Hk|Hk].
  - destruct (Hknown Hk) as (hits & -> & Hsound & _).
    assert (Ho : prog w = Done (percolated_names hits) w2)
      by (unfold prog, bind; now rewrite Hdt, Hrun1, Hrun2).
    rewrite Ho. simpl.
    split_all; try congruence; auto; try (intros; exfalso; eauto; fail).
    intros names w' [= <- <-] name Hin.
    apply percolated_names_spec in Hin as (h & Hh & Hid).
    destruct (Hsound h Hh) as [Hdoc Hm]. exists (_source h).
    rewrite <- Hid, <- Hdoc1. auto.
  - destruct (Hunknown Hk) as [-> ->].
    assert (Ho : prog w = Raised TypeError w1)
      by (unfold prog, bind; now rewrite Hdt, Hrun1, Hrun2).
    rewrite Ho. simpl.
    split_all; try congruence; auto; try discriminate;
      try (intros; exfalso; eauto; fail).
    intros _. f_equal.
    rewrite create_mapping_other in Hrun1; [now injection Hrun1| | |];
      unfold known_version in Hk; lia.
Qed.

(** Whatever its outcome, the second half of [get_record_sets] leaves
    every index other than the percolator index of the record's index
    exactly as it is. *)
Lemma percolated_other_indices (record : json) (w : World) (i : string) :
  i <> _build_percolator_index_name (record_to_index record).1 ->
  indices (world_of (get_record_sets_percolated record w)) !! i = indices w !! i.
Proof.
  unfold get_record_sets_percolated.
  destruct (record_to_index record) as [index doc_type]. simpl. intros Hi.
  match goal with |- context [world_of (?p w)] => set (prog := p) end.
  destruct (get_doc_type_outcome index w) as [[dt Hdt]|(Hdt & _)].
  2:{ assert (Ho : prog w = Raised (KeyError index) w)
        by (unfold prog, bind; now rewrite Hdt).
      now rewrite Ho. }
  pose proof (create_mapping_other_indices index dt None w i Hi) as Hother.
  destruct (_create_percolator_mapping index dt None w) as [[] w1|e w1] eqn:Hrun1;
    simpl in Hother.
  2:{ assert (Ho : prog w = Raised e w1)
        by (unfold prog, bind; now rewrite Hdt, Hrun1).
      now rewrite Ho. }
  destruct (legacy_percolate_run index doc_type dt (record_dumps record) w1)
    as (r & w2 & Hrun2 & Hidx2 & _).
  assert (Ho : world_of (prog w) = w2).
  { unfold prog, bind. rewrite Hdt, Hrun1, Hrun2. now destruct r. }
  now rewrite Ho, Hidx2.
Qed.

(** From a ready index and a known version the second half returns, and
    it yields the name of every matching [oaiset-] document when the page
    of the engine is large enough. *)
Lemma percolated_run (record : json) (w : World) :
  let index := (record_to_index record).1 in
  let pidx := _build_percolator_index_name index in
  ready index w -> known_version ->
  exists names w',
    get_record_sets_percolated record w = Done names w' /\
    (forall i, has_index w i = true -> has_index w' i = true) /\
    (forall name body,
       doc_at w pidx ("oaiset-" ++ name) = Some body ->
       stored_query_matches [record_dumps record] body = true ->
       ((ES_VERSION_0 = 2 \/ ES_VERSION_0 = 5)%Z \/
        forall ix, indices w !! pidx = Some ix -> size (ix_docs ix) <= 10) ->
       name ∈ names).
Proof.
  cbv zeta. intros Hready Hk.
  pose proof (percolated_outcome record w) as (_ & _ & _ & Hhas & _).
  revert Hhas. cbv zeta. unfold get_record_sets_percolated.
  destruct (record_to_index record) as [index doc_type]. simpl in *.
  destruct (get_doc_type_run index w) as (dt & Hdt); [apply Hready|].
  destruct (create_mapping_run index dt None w Hready)
    as (w1 & Hrun1 & _ & _ & _ & Hhas1 & _ & Hdoc1 & _).
  { intros _ p [=]. }
  destruct (legacy_percolate_run index doc_type dt (record_dumps record) w1)
    as (r & w2 & Hrun2 & Hidx2 & _ & _ & _ & Hknown).
  destruct (Hknown Hk) as (hits & -> & _ & _ & _ & Hcomplete).
  unfold bind. rewrite Hdt, Hrun1, Hrun2. simpl. intros Hhas.
  eexists _, _. split; [reflexivity|]. split; [exact Hhas|].
  intros name body Hdoc Hm Hpage.
  apply percolated_names_spec.
  exists {| _id := "oaiset-" ++ name; _source := body |}. split; [|reflexivity].
  unfold doc_at in Hdoc.
  destruct (indices w !! _build_percolator_index_name index) as [ix|] eqn:Hix;
    [|discriminate].
  assert (Hx1 : has_index w1 (_build_percolator_index_name index) = true).
  { apply Hhas1. apply has_index_true. eauto. }
  apply has_index_true in Hx1 as [ix1 Hix1].
  assert (Hsame : ix_docs ix1 = ix_docs ix)
    by (eapply (same_docs_same_map w w1); eauto).
  apply (Hcomplete ix1 Hix1).
  - destruct Hpage as [Hv|Hsize]; [now left|right].
    rewrite Hsame. now apply Hsize.
  - now rewrite Hsame.
  - assumption.
Qed.

End RecordSets.

Section RecordSetsProperties.
Context `{Env}.

Lemma get_record_sets_split (record : json) (w : World) :
  exists static w0,
    get_record_sets_static record w = Done static w0 /\
    indices w0 = indices w /\ oaisets w0 = oaisets w /\
    (requests w0 = requests w \/
     requests w0 = (requests w ++ [OAISet_query true])%list) /\
    (forall name, name ∈ static -> name ∈ record_sets_fetcher record) /\
    get_record_sets record w =
      (let! percolated := get_record_sets_percolated record in
       ret (static ++ percolated)%list) w0.
Proof.
  assert (Hcache : exists cache w0, _build_cache w = Done cache w0 /\
            indices w0 = indices w /\ oaisets w0 = oaisets w /\
            (requests w0 = requests w \/
             requests w0 = (requests w ++ [OAISet_query true])%list)).
  { destruct (current_oaiserver_sets w) as [sets|] eqn:Hc.
    - exists sets, w. rewrite (build_cache_set w sets Hc). auto.
    - eexists _, _. rewrite (build_cache_unset w Hc). split; [reflexivity|]. auto. }
  destruct Hcache as (cache & w0 & Hrun & Hidx & Hsets & Hreq).
  exists (List.filter (fun s => bool_decide (s ∈ record_sets_fetcher record)) cache), w0.
  assert (Hstatic : get_record_sets_static record w =
    Done (List.filter (fun s => bool_decide (s ∈ record_sets_fetcher record)) cache) w0).
  { unfold get_record_sets_static, bind. now rewrite Hrun. }
  split; [assumption|]. split; [assumption|]. split; [assumption|].
  split; [assumption|]. split.
  - intros name Hin. apply elem_of_filter_bool in Hin as [_ Hb].
    now apply bool_decide_eq_true in Hb.
  - unfold get_record_sets. unfold bind at 1. now rewrite Hstatic.
Qed.

(** X1: whatever its outcome, [get_record_sets] writes and deletes no
    document, removes no index and leaves the table as it is; every index
    other than the percolator index of the record's index is exactly as
    it was, so that index and its mapping are all that can appear or
    change. *)
Theorem get_record_sets_leaves_documents (record : json) (w : World) :
  let o := get_record_sets record w in
  oaisets (world_of o) = oaisets w /\
  (forall i j, doc_at (world_of o) i j = doc_at w i j) /\
  (forall i, has_index w i = true -> has_index (world_of o) i = true) /\
  (forall i, i <> _build_percolator_index_name (record_to_index record).1 ->
     indices (world_of o) !! i = indices w !! i).
Proof.
  cbv zeta.
  destruct (get_record_sets_split record w)
    as (static & w0 & _ & Hidx & Hsets & _ & _ & ->).
  pose proof (percolated_outcome record w0) as (Hsets1 & _ & Hdoc1 & Hhas1 & _).
  rewrite world_of_bind_ret.
  split; [congruence|]. split; [|split].
  - intros i j. rewrite Hdoc1. unfold doc_at. now rewrite Hidx.
  - intros i Hi. apply Hhas1. unfold has_index in *. now rewrite Hidx.
  - intros i Hi. rewrite percolated_other_indices by assumption. now rewrite Hidx.
Qed.

(** X2: every name [get_record_sets] yields is either listed by the record's
    fetcher or is the name of an [oaiset-] document of the percolator
    index of the record's index whose stored query percolates the dumped
    record. *)
Theorem get_record_sets_sound (record : json) (w w' : World)
    (names : list string) :
  get_record_sets record w = Done names w' ->
  forall name, name ∈ names ->
    name ∈ record_sets_fetcher record \/
    exists body q,
      doc_at w (_build_percolator_index_name (record_to_index record).1)
        ("oaiset-" ++ name) = Some body /\
      jget "query" body = Some q /\
      percolates q (record_dumps record) = true.
Proof.
  destruct (get_record_sets_split record w)
    as (static & w0 & _ & Hidx & _ & _ & Hstatic & ->).
  pose proof (percolated_outcome record w0) as (_ & _ & _ & _ & Hsound & _).
  unfold bind.
  destruct (get_record_sets_percolated record w0) as [percolated w1|] eqn:Hrun;
    [|discriminate].
  intros [= <- <-] name Hin. apply elem_of_app in Hin as [Hin|Hin]; [left; auto|].
  right. destruct (Hsound percolated w1 eq_refl name Hin) as (body & Hdoc & Hm).
  apply stored_query_matches_one in Hm as (q & Hq & Hp).
  exists body, q. split; [|auto].
  unfold doc_at in *. now rewrite <- Hidx.
Qed.

(** X3: on versions 6 and 7 a record whose index is not registered in
    [current_search.mappings] makes [get_record_sets] raise [KeyError]
    after the static step; nothing is sent to the engine. *)
Theorem get_record_sets_unregistered_index (record : json) (w : World) :
  (ES_VERSION_0 = 6 \/ ES_VERSION_0 = 7)%Z ->
  assoc (record_to_index record).1 mappings = None ->
  exists w',
    get_record_sets record w = Raised (KeyError (record_to_index record).1) w' /\
    indices w' = indices w /\
    (requests w' = requests w \/
     requests w' = (requests w ++ [OAISet_query true])%list).
Proof.
  intros Hv Hreg.
  destruct (get_record_sets_split record w)
    as (static & w0 & _ & Hidx & _ & Hreq & _ & ->).
  pose proof (percolated_outcome record w0) as (_ & _ & _ & _ & _ & Hkey & _).
  exists w0. unfold bind. rewrite (Hkey Hv Hreg). auto.
Qed.

(** X4: on an engine version other than 2, 5, 6 and 7, [_percolate_query]
    returns [None] and [get_record_sets] raises [TypeError] after the
    static step; nothing is sent to the engine. *)
Theorem get_record_sets_unknown_version (record : json) (w : World) :
  ~ known_version ->
  exists w',
    get_record_sets record w = Raised TypeError w' /\
    indices w' = indices w /\
    (requests w' = requests w \/
     requests w' = (requests w ++ [OAISet_query true])%list).
Proof.
  intros Hk.
  destruct (get_record_sets_split record w)
    as (static & w0 & _ & Hidx & _ & Hreq & _ & ->).
  pose proof (percolated_outcome record w0) as (_ & _ & _ & _ & _ & _ & Htype).
  exists w0. unfold bind. rewrite (Htype Hk). auto.
Qed.

End RecordSetsProperties.

(** ** Composing the registry operations *)

Section RegistryProperties.
Context `{Env}.

Lemma props_at_no_index (w : World) (i : string) :
  has_index w i = false -> props_at w i = None.
Proof.
  intros Hx. apply has_index_false in Hx. unfold props_at. now rewrite Hx.
Qed.

(** Writing a document that is already there with the same body leaves
    the engine as it is. *)
Lemma client_index_same (index : string) (dt : option string) (id : string)
    (body : json) (w : World) :
  doc_at w index id = Some body ->
  exists w', client_index index dt id body w = Done tt w' /\
             indices w' = indices w.
Proof.
  intros Hdoc. unfold client_index. run. eexists. split; [reflexivity|].
  simpl. unfold doc_at in Hdoc.
  destruct (indices w !! index) as [[props docs]|] eqn:Hix; [|discriminate].
  simpl in *. rewrite (insert_id docs id body Hdoc).
  now apply insert_id.
Qed.

(** With its work done before, the index manager leaves the engine as it
    is. *)
Lemma create_mapping_settled (index : string) (dt mp : option string) (w : World) :
  ready index w ->
  ((ES_VERSION_0 = 5 \/ ES_VERSION_0 = 6)%Z ->
   exists p, props_at w index = Some p /\
             dict_update p (properties_of PERCOLATOR_MAPPING) = p) ->
  (ES_VERSION_0 = 7%Z -> has_index w (_build_percolator_index_name index) = true) ->
  exists w1, _create_percolator_mapping index dt mp w = Done tt w1 /\
             indices w1 = indices w.
Proof.
  intros Hready Hprops Hpidx.
  destruct (decide (ES_VERSION_0 = 5 \/ ES_VERSION_0 = 6)%Z) as [Hv|Hv].
  - rewrite create_mapping_56 by assumption.
    destruct Hready as (Hcontent & _).
    destruct (put_mapping_run index dt PERCOLATOR_MAPPING w (Hcontent Hv))
      as (w1 & Hrun & _ & _ & _ & Hhas & Hdoc & Hp).
    exists w1. split; [assumption|].
    apply indices_ext; [assumption| |assumption].
    intros i. rewrite Hp. destruct (decide (i = index)) as [->|]; [|reflexivity].
    destruct (Hprops Hv) as (p & Hpw & Hsat). rewrite Hpw.
    exact (f_equal Some Hsat).
  - destruct (decide (ES_VERSION_0 = 7%Z)) as [H7|H7].
    + rewrite create_mapping_7_exists by auto.
      destruct Hready as (_ & Hreg & _).
      rewrite (bool_decide_eq_true_2 _ (Hreg (or_intror H7))), orb_true_r.
      eexists. split; reflexivity.
    + rewrite create_mapping_other by tauto. exists w. split; reflexivity.
Qed.

(** One round of the loop of [_new_percolator], with all it does to the
    engine. *)
Lemma new_percolator_step_full (spec : string) (query : json)
    (index path : string) (w : World) :
  ready index w -> (index, path) ∈ mappings ->
  exists w',
    (let! percolator_doc_type := _get_percolator_doc_type index in
     _create_percolator_mapping index percolator_doc_type (Some path) >>>
     client_index (_build_percolator_index_name index) percolator_doc_type
       ("oaiset-" ++ spec) (JObj [("query", query)])) w = Done tt w' /\
    (forall i, has_index w i = true -> has_index w' i = true) /\
    has_index w' (_build_percolator_index_name index) = true /\
    (forall i j, doc_at w' i j =
       if decide (i = _build_percolator_index_name index /\ j = "oaiset-" ++ spec)
       then Some (JObj [("query", query)]) else doc_at w i j) /\
    ((ES_VERSION_0 = 5 \/ ES_VERSION_0 = 6)%Z ->
     forall i, props_at w' i =
       if decide (i = index)
       then (fun p => dict_update p (properties_of PERCOLATOR_MAPPING)) <$>
              props_at w i
       else props_at w i).
Proof.
  intros Hready Hin.
  destruct (get_doc_type_run index w) as (dt & Hdt); [apply Hready|].
  destruct (create_mapping_run index dt (Some path) w Hready)
    as (w1 & Hrun1 & _ & _ & _ & Hhas1 & _ & Hdoc1 & Hprops1).
  { intros H7 p [= <-]. eapply loadable_path; [now apply Hready|exact Hin]. }
  destruct (client_index_run (_build_percolator_index_name index) dt
              ("oaiset-" ++ spec) (JObj [("query", query)]) w1)
    as (w2 & Hrun2 & _ & _ & _ & Hhas2 & Hdoc2 & Hprops2).
  exists w2. split; [unfold bind; now rewrite Hdt, Hrun1|].
  split; [intros i Hi; rewrite Hhas2; destruct (decide _); auto|].
  split; [rewrite Hhas2; now destruct (decide _)|].
  split; [intros i j; rewrite Hdoc2; destruct (decide _); auto|].
  intros Hv i.
  assert (Hcontent : has_index w1 index = true)
    by (apply Hhas1; now apply Hready).
  assert (Hname : _build_percolator_index_name index = index)
    by (apply percolator_index_name_old; lia).
  rewrite <- (Hprops1 Hv i).
  destruct (has_index w1 i) eqn:Hi; [now apply Hprops2|].
  rewrite (props_at_no_index w1 i Hi). apply props_at_no_index.
  rewrite Hhas2, Hname. destruct (decide (i = index)) as [->|]; [congruence|assumption].
Qed.

Lemma upserted_same_engine (spec : string) (body : json) (index : string)
    (w w' : World) :
  indices w' = indices w -> upserted spec body index w -> upserted spec body index w'.
Proof.
  intros Heq. unfold upserted, ready, has_index, props_at, doc_at.
  now rewrite Heq.
Qed.

(** The loop of [_new_percolator] leaves every registered index
    [upserted]. *)
Lemma new_percolator_loop_upserted (spec : string) (query : json) (w : World) :
  registry_ready w ->
  exists w',
    for_each (fun '(index, mapping_path) =>
      let! percolator_doc_type := _get_percolator_doc_type index in
      _create_percolator_mapping index percolator_doc_type (Some mapping_path) >>>
      client_index (_build_percolator_index_name index) percolator_doc_type
        ("oaiset-" ++ spec) (JObj [("query", query)])) mappings w = Done tt w' /\
    registry_ready w' /\
    (forall i j, j <> "oaiset-" ++ spec -> doc_at w' i j = doc_at w i j) /\
    (forall index, index ∈ map fst mappings ->
       upserted spec (JObj [("query", query)]) index w').
Proof.
  intros Hready.
  destruct (for_each_invariant
    (fun u => registry_ready u /\
              forall i j, j <> "oaiset-" ++ spec -> doc_at u i j = doc_at w i j)
    (fun (x : string * string) u =>
       x.1 ∈ map fst mappings /\ upserted spec (JObj [("query", query)]) x.1 u)
    (fun '(index, mapping_path) =>
      let! percolator_doc_type := _get_percolator_doc_type index in
      _create_percolator_mapping index percolator_doc_type (Some mapping_path) >>>
      client_index (_build_percolator_index_name index) percolator_doc_type
        ("oaiset-" ++ spec) (JObj [("query", query)]))
    mappings) with (w := w) as (w' & Hrun & [Hready' Hframe] & Hpost).
  - intros [index path] u Hin [Hu Hfr].
    assert (Hkey : index ∈ map fst mappings).
    { apply list_elem_of_fmap. exists (index, path). auto. }
    destruct (new_percolator_step_full spec query index path u (Hu index Hkey) Hin)
      as (u' & Hrun & Hhas & Hpidx & Hdoc & Hprops).
    exists u'. split; [assumption|].
    assert (Hready' : registry_ready u').
    { intros i Hi. eapply ready_mono; [exact Hhas|auto]. }
    split; [split; [assumption|]|].
    { intros i j Hj. rewrite Hdoc. destruct (decide _) as [[_ ->]|]; [done|auto]. }
    assert (Hkeep : forall y, y ∈ map fst mappings ->
      upserted spec (JObj [("query", query)]) y u \/ y = index ->
      upserted spec (JObj [("query", query)]) y u').
    { intros y Hy Hold. split; [auto|]. split; [|split].
      - intros Hv. rewrite (Hprops Hv).
        destruct (decide (y = index)) as [->|Hne].
        + destruct (Hu index Hkey) as (Hcontent & _).
          apply has_index_true in Hcontent as [ix Hix]; [|assumption].
          unfold props_at. rewrite Hix. simpl. eexists. split; [reflexivity|].
          apply percolator_properties_twice.
        + destruct Hold as [(_ & Hp & _)|]; [auto|done].
      - intros H7. destruct Hold as [(_ & _ & Hx & _)| ->]; auto.
      - rewrite Hdoc. destruct (decide _) as [|Hn]; [reflexivity|].
        destruct Hold as [(_ & _ & _ & Hd)| ->]; [assumption|tauto]. }
    split.
    + simpl. split; [assumption|]. apply Hkeep; auto.
    + intros y [Hy Hold]. split; [assumption|]. apply Hkeep; auto.
  - split; [assumption|auto].
  - exists w'. split; [assumption|]. split; [assumption|]. split; [assumption|].
    intros index Hin. apply list_elem_of_fmap in Hin as ([i p] & -> & Hin).
    apply (Hpost (i, p)), Hin.
Qed.

Lemma new_percolator_step_upserted (spec : string) (query : json)
    (index path : string) (w : World) :
  upserted spec (JObj [("query", query)]) index w ->
  exists w',
    (let! percolator_doc_type := _get_percolator_doc_type index in
     _create_percolator_mapping index percolator_doc_type (Some path) >>>
     client_index (_build_percolator_index_name index) percolator_doc_type
       ("oaiset-" ++ spec) (JObj [("query", query)])) w = Done tt w' /\
    indices w' = indices w.
Proof.
  intros (Hready & Hprops & Hpidx & Hdoc).
  destruct (get_doc_type_run index w) as (dt & Hdt); [apply Hready|].
  destruct (create_mapping_settled index dt (Some path) w Hready Hprops Hpidx)
    as (w1 & Hrun1 & Heq1).
  destruct (client_index_same (_build_percolator_index_name index) dt
              ("oaiset-" ++ spec) (JObj [("query", query)]) w1)
    as (w2 & Hrun2 & Heq2).
  { unfold doc_at in *. now rewrite Heq1. }
  exists w2. split; [unfold bind; now rewrite Hdt, Hrun1|congruence].
Qed.

Lemma new_percolator_loop_again (spec : string) (query : json)
    (l : list (string * string)) (w : World) :
  (forall x, x ∈ l -> upserted spec (JObj [("query", query)]) x.1 w) ->
  exists w',
    for_each (fun '(index, mapping_path) =>
      let! percolator_doc_type := _get_percolator_doc_type index in
      _create_percolator_mapping index percolator_doc_type (Some mapping_path) >>>
      client_index (_build_percolator_index_name index) percolator_doc_type
        ("oaiset-" ++ spec) (JObj [("query", query)])) l w = Done tt w' /\
    indices w' = indices w.
Proof.
  revert w. induction l as [|[index path] l IH]; intros w Hall.
  - exists w. split; reflexivity.
  - destruct (new_percolator_step_upserted spec query index path w)
      as (w1 & Hrun1 & Heq1); [apply (Hall (index, path)); left|].
    destruct (IH w1) as (w2 & Hrun2 & Heq2).
    { intros x Hx. apply (upserted_same_engine _ _ _ w); [assumption|].
      apply Hall. now right. }
    exists w2. split; [simpl; unfold bind at 1; now rewrite Hrun1|congruence].
Qed.

(** X8: [_new_percolator] is an idempotent upsert: from a ready registry the
    call goes through, and the same call on the world it left goes through
    without changing the engine. *)
Theorem new_percolator_idempotent (spec : string) (pattern : option string)
    (w : World) :
  registry_ready w ->
  exists w1 w2,
    _new_percolator spec pattern w = Done tt w1 /\
    _new_percolator spec pattern w1 = Done tt w2 /\
    indices w2 = indices w1.
Proof.
  intros Hready. unfold _new_percolator.
  destruct (truthy spec && truthy_opt pattern).
  - destruct (new_percolator_loop_upserted spec (query_string_parser pattern) w Hready)
      as (w1 & Hrun1 & _ & _ & Hup).
    destruct (new_percolator_loop_again spec (query_string_parser pattern) mappings w1)
      as (w2 & Hrun2 & Heq).
    { intros [i p] Hin. apply Hup. apply list_elem_of_fmap. exists (i, p). auto. }
    exists w1, w2. auto.
  - exists w, w. repeat split.
Qed.

Lemma oaiset_id_inj (spec spec' : string) :
  "oaiset-" ++ spec = "oaiset-" ++ spec' -> spec = spec'.
Proof. intros Heq. now injection Heq. Qed.

(** X9: the last write wins: from a ready registry, for a spec and two
    search patterns that are not empty, both [_new_percolator] calls go
    through, the second replaces the stored query in the percolator index
    of every registered index, and the two together touch no document
    under another id. *)
Theorem new_percolator_last_write_wins (spec : string)
    (pattern pattern' : option string) (w : World) :
  registry_ready w ->
  truthy spec = true -> truthy_opt pattern = true -> truthy_opt pattern' = true ->
  exists w1 w2,
    _new_percolator spec pattern w = Done tt w1 /\
    _new_percolator spec pattern' w1 = Done tt w2 /\
    (forall index, index ∈ map fst mappings ->
       doc_at w2 (_build_percolator_index_name index) ("oaiset-" ++ spec) =
       Some (JObj [("query", query_string_parser pattern')])) /\
    (forall i j, j <> "oaiset-" ++ spec -> doc_at w2 i j = doc_at w i j).
Proof.
  intros Hready Hspec Hp Hp'. unfold _new_percolator. rewrite Hspec, Hp, Hp'. simpl.
  destruct (new_percolator_loop_upserted spec (query_string_parser pattern) w Hready)
    as (w1 & Hrun1 & Hready1 & Hframe1 & _).
  destruct (new_percolator_loop_upserted spec (query_string_parser pattern') w1 Hready1)
    as (w2 & Hrun2 & _ & Hframe2 & Hup2).
  exists w1, w2. split; [assumption|]. split; [assumption|]. split.
  - intros index Hin. apply (Hup2 index Hin).
  - intros i j Hj. rewrite Hframe2, Hframe1; auto.
Qed.

(** X10: [_delete_percolator] undoes [_new_percolator]: from a ready
    registry, for a spec and a search pattern that are not empty, both
    calls go through; after them the document of the set is gone from the
    percolator index of every registered index and every document under
    another id is as it was before the two calls. *)
Theorem delete_undoes_new_percolator (spec : string)
    (pattern pattern' : option string) (w : World) :
  registry_ready w ->
  truthy spec = true -> truthy_opt pattern = true ->
  exists w1 w2,
    _new_percolator spec pattern w = Done tt w1 /\
    _delete_percolator spec pattern' w1 = Done tt w2 /\
    (forall index, index ∈ map fst mappings ->
       doc_at w2 (_build_percolator_index_name index) ("oaiset-" ++ spec) = None) /\
    (forall i j, j <> "oaiset-" ++ spec -> doc_at w2 i j = doc_at w i j).
Proof.
  intros Hready Hspec Hp. unfold _new_percolator, _delete_percolator.
  rewrite Hspec, Hp. simpl.
  destruct (new_percolator_loop_upserted spec (query_string_parser pattern) w Hready)
    as (w1 & Hrun1 & Hready1 & Hframe1 & _).
  destruct (delete_percolator_loop spec w1 Hready1) as (w2 & Hrun2 & Hframe2 & Hpost).
  exists w1, w2. split; [assumption|]. split; [assumption|]. split.
  - intros index Hin. apply (Hpost index Hin).
  - intros i j Hj. rewrite Hframe2, Hframe1; auto.
Qed.

(** X11: the percolators of different sets do not interfere: writing or
    deleting the document of one set leaves the document of every other
    set where it is, in every index. *)
Theorem registry_keeps_other_sets (spec spec' : string)
    (pattern : option string) (w : World) :
  registry_ready w -> spec' <> spec ->
  exists w1 w2,
    _new_percolator spec pattern w = Done tt w1 /\
    _delete_percolator spec pattern w = Done tt w2 /\
    forall i,
      doc_at w1 i ("oaiset-" ++ spec') = doc_at w i ("oaiset-" ++ spec') /\
      doc_at w2 i ("oaiset-" ++ spec') = doc_at w i ("oaiset-" ++ spec').
Proof.
  intros Hready Hne.
  assert (Hid : "oaiset-" ++ spec' <> "oaiset-" ++ spec).
  { intros Heq. apply Hne. now apply oaiset_id_inj. }
  unfold _new_percolator, _delete_percolator.
  destruct (new_percolator_loop_upserted spec (query_string_parser pattern) w Hready)
    as (w1 & Hrun1 & _ & Hframe1 & _).
  destruct (delete_percolator_loop spec w Hready) as (w2 & Hrun2 & Hframe2 & _).
  destruct (truthy spec); simpl.
  - destruct (truthy_opt pattern).
    + exists w1, w2. split; [assumption|]. split; [assumption|]. auto.
    + exists w, w2. split; [reflexivity|]. split; [assumption|]. auto.
  - exists w, w. repeat split.
Qed.

End RegistryProperties.

(** ** Registry and matching together *)

Section RegistryAndMatching.
Context `{Env}.

Lemma ready_same_engine (index : string) (w w' : World) :
  indices w' = indices w -> ready index w -> ready index w'.
Proof. intros Heq. unfold ready, has_index. now rewrite Heq. Qed.

(** X12: from a ready registry, on a known engine version, for a spec
    that is not empty and a record of a registered index, in an engine
    where a delete is seen by the next search, [_delete_percolator] goes
    through, [get_record_sets] after it returns, and it yields the set only
    if the record's fetcher lists it: the percolate query cannot bring it
    back. *)
Theorem deleted_set_is_not_percolated (spec : string) (pattern : option string)
    (record : json) (w : World) :
  registry_ready w -> truthy spec = true -> known_version ->
  (record_to_index record).1 ∈ map fst mappings ->
  exists w1 names w2,
    _delete_percolator spec pattern w = Done tt w1 /\
    get_record_sets record w1 = Done names w2 /\
    (spec ∈ names -> spec ∈ record_sets_fetcher record).
Proof.
  intros Hready Hspec Hk Hkey. unfold _delete_percolator. rewrite Hspec.
  destruct (delete_percolator_loop spec w Hready) as (w1 & Hrun1 & _ & Hpost).
  destruct (Hpost _ Hkey) as (Hready1 & _ & _ & Hgone).
  destruct (get_record_sets_split record w1)
    as (static & w0 & _ & Hidx & _ & _ & Hstatic & Hsplit).
  destruct (percolated_run record w0) as (percolated & w2 & Hrun2 & _);
    [eapply ready_same_engine; eauto|assumption|].
  pose proof (percolated_outcome record w0) as (_ & _ & _ & _ & Hsound & _).
  exists w1, (static ++ percolated)%list, w2. split; [assumption|]. split.
  - rewrite Hsplit. unfold bind. now rewrite Hrun2.
  - intros Hin. apply elem_of_app in Hin as [Hin|Hin]; [auto|].
    destruct (Hsound percolated w2 Hrun2 spec Hin) as (body & Hdoc & _).
    unfold doc_at in Hdoc, Hgone. rewrite Hidx in Hdoc. congruence.
Qed.

(** X13: from a ready registry, on a known engine version, for a spec and
    a search pattern that are not empty, in an engine where a write is
    seen by the next search, [_new_percolator] goes through and
    [get_record_sets] after it returns and yields the set for every record
    of a registered index that the translated pattern percolates, provided
    the page of the engine (ten hits on versions 6 and 7) holds the whole
    percolator index. *)
Theorem new_set_is_percolated (spec : string) (pattern : option string)
    (record : json) (w : World) :
  registry_ready w -> truthy spec = true -> truthy_opt pattern = true ->
  known_version ->
  (record_to_index record).1 ∈ map fst mappings ->
  percolates (query_string_parser pattern) (record_dumps record) = true ->
  exists w1,
    _new_percolator spec pattern w = Done tt w1 /\
    (((ES_VERSION_0 = 2 \/ ES_VERSION_0 = 5)%Z \/
      forall ix,
        indices w1 !! _build_percolator_index_name (record_to_index record).1
          = Some ix -> size (ix_docs ix) <= 10) ->
     exists names w2,
       get_record_sets record w1 = Done names w2 /\ spec ∈ names).
Proof.
  intros Hready Hspec Hp Hk Hkey Hmatch. unfold _new_percolator.
  rewrite Hspec, Hp. simpl.
  destruct (new_percolator_loop_upserted spec (query_string_parser pattern) w Hready)
    as (w1 & Hrun1 & _ & _ & Hup).
  exists w1. split; [assumption|]. intros Hpage.
  destruct (Hup _ Hkey) as (Hready1 & _ & _ & Hdoc).
  destruct (get_record_sets_split record w1)
    as (static & w0 & _ & Hidx & _ & _ & _ & Hsplit).
  destruct (percolated_run record w0) as (percolated & w2 & Hrun2 & _ & Hcomplete);
    [eapply ready_same_engine; eauto|assumption|].
  exists (static ++ percolated)%list, w2. split.
  - rewrite Hsplit. unfold bind. now rewrite Hrun2.
  - apply elem_of_app. right.
    apply (Hcomplete spec (JObj [("query", query_string_parser pattern)])).
    + unfold doc_at in *. now rewrite Hidx.
    + unfold stored_query_matches. simpl. now rewrite Hmatch.
    + rewrite Hidx. exact Hpage.
Qed.

End RegistryAndMatching.

(** ** More on [percolate_query] and [index_sets] *)

Section PercolateQueryProperties.
Context `{Env}.

(** The loop of [index_sets] writes under the specs of the sets and
    nowhere else. *)
Lemma index_sets_loop_docs (pidx : string) (sets : list OAISet) (w : World) :
  exists w',
    for_each (fun set =>
      let query := query_string_parser (search_pattern set) in
      client_index pidx None (spec set) (JObj [("query", query)])) sets w
      = Done tt w' /\
    (forall i j, i <> pidx \/ j ∉ map spec sets -> doc_at w' i j = doc_at w i j) /\
    (forall i, i <> pidx -> has_index w' i = has_index w i) /\
    (NoDup (map spec sets) ->
     forall set, set ∈ sets ->
       doc_at w' pidx (spec set) =
       Some (JObj [("query", query_string_parser (search_pattern set))])).
Proof.
  revert w. induction sets as [|set sets IH]; intros w.
  - exists w. split; [reflexivity|]. split; [auto|]. split; [auto|].
    intros _ set Hin. inversion Hin.
  - destruct (client_index_run pidx None (spec set)
                (JObj [("query", query_string_parser (search_pattern set))]) w)
      as (w1 & Hrun1 & _ & _ & _ & Hhas1 & Hdoc1 & _).
    destruct (IH w1) as (w2 & Hrun2 & Hframe2 & Hhas2 & Hdoc2).
    exists w2. split; [simpl; unfold bind at 1; now rewrite Hrun1|].
    split; [|split].
    + intros i j Hij. rewrite Hframe2.
      * rewrite Hdoc1. destruct (decide _) as [[-> ->]|]; [|reflexivity].
        destruct Hij as [Hi|Hj]; [done|]. exfalso. apply Hj. simpl. left.
      * destruct Hij as [Hi|Hj]; [now left|right].
        intros Hin. apply Hj. simpl. now right.
    + intros i Hi. rewrite Hhas2, Hhas1 by assumption.
      now destruct (decide (i = pidx)).
    + intros Hnodup s Hin. simpl in Hnodup. apply NoDup_cons in Hnodup as [Hfresh Hnodup].
      apply elem_of_cons in Hin as [->|Hin]; [|now apply Hdoc2].
      rewrite Hframe2 by now right.
      rewrite Hdoc1. destruct (decide _); [reflexivity|tauto].
Qed.

Lemma index_sets_frame (w w1 : World) :
  index_sets w = Done tt w1 ->
  let pidx := _build_percolator_index_name "rdmrecords-records-record-v4.0.0" in
  oaisets w1 = oaisets w /\
  (forall i j, i <> pidx \/ j ∉ map spec (oaisets w) ->
     doc_at w1 i j = doc_at w i j) /\
  (forall i, i <> pidx -> has_index w1 i = has_index w i) /\
  (NoDup (map spec (oaisets w)) ->
   forall set, set ∈ oaisets w ->
     doc_at w1 pidx (spec set) =
     Some (JObj [("query", query_string_parser (search_pattern set))])).
Proof.
  cbv zeta. unfold index_sets, OAISet_query_all. run.
  destruct (oaisets w) as [|set sets] eqn:Hsets.
  - intros [= <-]. simpl. split; [auto|]. split; [auto|]. split; [auto|].
    intros _ s Hin. inversion Hin.
  - set (w0 := log (OAISet_query false) w).
    destruct (get_doc_type_outcome "rdmrecords-records-record-v4.0.0" w0)
      as [[dt Hdt]|(Hdt & _)]; rewrite Hdt; [|discriminate].
    pose proof (create_mapping_outcome "rdmrecords-records-record-v4.0.0" dt None w0)
      as (Hsets1 & _ & Hdoc1 & _ & Hhas1 & _).
    destruct (_create_percolator_mapping "rdmrecords-records-record-v4.0.0" dt None w0)
      as [[] w'|e w'] eqn:Hrun1; [|discriminate].
    simpl in Hsets1, Hdoc1, Hhas1. intros Hfinal.
    destruct (decide (ES_VERSION_0 < 7)%Z) as [Hold|Hnew].
    { rewrite index_sets_loop_old_client in Hfinal by assumption.
      discriminate Hfinal. }
    rewrite index_sets_loop_new_client in Hfinal by assumption.
    destruct (index_sets_loop_docs
                (_build_percolator_index_name "rdmrecords-records-record-v4.0.0")
                (set :: sets) w')
      as (w2 & Hrun2 & Hframe2 & Hhas2 & Hdoc2).
    assert (Hsets2 : oaisets w2 = oaisets w').
    { destruct (index_sets_loop
                  (_build_percolator_index_name "rdmrecords-records-record-v4.0.0")
                  (set :: sets) w') as (w2' & Hrun2' & _ & Hs & _).
      rewrite Hrun2 in Hrun2'. now injection Hrun2' as <-. }
    assert (Hw : Done tt w2 = Done tt w1) by (rewrite <- Hrun2; exact Hfinal).
    injection Hw as <-.
    split; [rewrite Hsets2, Hsets1; exact Hsets|].
    split; [intros i j Hij; rewrite Hframe2 by assumption; apply Hdoc1|].
    split; [intros i Hi; rewrite Hhas2, Hhas1 by assumption; reflexivity|].
    exact Hdoc2.
Qed.

(** X14: [index_sets] only ever adds or replaces: with distinct specs in the
    table, the percolator index ends with the translated pattern of every
    set under its bare spec, and every other document, that of a set no
    longer in the table included, stays where it was. *)
Theorem index_sets_keeps_stale_documents (w w1 : World) :
  index_sets w = Done tt w1 ->
  let pidx := _build_percolator_index_name "rdmrecords-records-record-v4.0.0" in
  (forall i j, i <> pidx \/ j ∉ map spec (oaisets w) ->
     doc_at w1 i j = doc_at w i j) /\
  (NoDup (map spec (oaisets w)) ->
   forall set, set ∈ oaisets w ->
     doc_at w1 pidx (spec set) =
     Some (JObj [("query", query_string_parser (search_pattern set))])).
Proof.
  intros Hrun. destruct (index_sets_frame w w1 Hrun) as (_ & Hframe & _ & Hdoc).
  split; assumption.
Qed.

(** What [percolate_query] returns when it is given documents. *)
Lemma percolate_query_documents_run (percolator_index : string)
    (percolator_ids : option (list string)) (documents : list json)
    (document_es_ids document_es_indices : option (list string))
    (w w1 : World) (ix : index_state) :
  index_sets w = Done tt w1 ->
  indices w1 !! percolator_index = Some ix ->
  percolate_query percolator_index percolator_ids (Some documents)
    document_es_ids document_es_indices w =
  Done (take 20 (matching_hits
          ((fun (_ : string) body => stored_query_matches documents body) ::
           match percolator_ids with
           | Some (id :: ids) => [fun id0 (_ : json) => bool_decide (id0 ∈ id :: ids)]
           | _ => []
           end) ix))
       (log (Search_request percolator_index
               (create_percolate_query percolator_ids (Some documents)
                  document_es_ids document_es_indices) (Some 20)) w1).
Proof.
  intros Hrun Hix.
  rewrite (percolate_query_after_index_sets _ _ _ _ _ w w1 Hrun).
  unfold client_search. run. rewrite Hix.
  destruct percolator_ids as [[|id ids]|]; reflexivity.
Qed.

Lemma percolate_query_done_inv (percolator_index : string)
    (percolator_ids : option (list string)) (documents : option (list json))
    (document_es_ids document_es_indices : option (list string))
    (w w' : World) (hits : list hit) :
  percolate_query percolator_index percolator_ids documents
    document_es_ids document_es_indices w = Done hits w' ->
  exists w1 ix, index_sets w = Done tt w1 /\
                indices w1 !! percolator_index = Some ix.
Proof.
  unfold percolate_query. unfold bind at 1.
  destruct (index_sets w) as [[] w1|] eqn:Hrun; [|discriminate].
  intros Hq. exists w1.
  destruct (indices w1 !! percolator_index) as [ix|] eqn:Hix; [eauto|].
  exfalso. revert Hq. unfold client_search. run. now rewrite Hix.
Qed.


(** X16: [percolate_query] does not tolerate a missing index: when the index
    is not there once [index_sets] is done, the call raises
    [NotFoundError].  With an empty table [index_sets] creates nothing, so
    on a fresh engine [record_in_set] raises instead of answering no. *)
Theorem percolate_query_missing_index (percolator_index : string)
    (percolator_ids : option (list string)) (documents : option (list json))
    (document_es_ids document_es_indices : option (list string))
    (record : json) (set_spec : string) (w : World) :
  (forall w1, index_sets w = Done tt w1 ->
     has_index w1 percolator_index = false ->
     exists w', percolate_query percolator_index percolator_ids documents
                  document_es_ids document_es_indices w = Raised NotFoundError w' /\
                indices w' = indices w1) /\
  (oaisets w = [] ->
   has_index w (_build_percolator_index_name "rdmrecords-records-record-v4.0.0")
     = false ->
   exists w', record_in_set record set_spec w = Raised NotFoundError w' /\
              indices w' = indices w).
Proof.
  assert (Hmissing : forall index ids docs a b w1,
    index_sets w = Done tt w1 -> has_index w1 index = false ->
    percolate_query index ids docs a b w =
    Raised NotFoundError
      (log (Search_request index (create_percolate_query ids docs a b) (Some 20)) w1)).
  { intros index ids docs a b w1 Hrun Hx.
    rewrite (percolate_query_after_index_sets _ _ _ _ _ w w1 Hrun).
    apply has_index_false in Hx. unfold client_search. run. now rewrite Hx. }
  split.
  - intros w1 Hrun Hx. eexists.
    split; [apply (Hmissing _ _ _ _ _ w1 Hrun Hx)|reflexivity].
  - intros Hempty Hx.
    assert (Hrun : index_sets w = Done tt (log (OAISet_query false) w)).
    { unfold index_sets, OAISet_query_all. run. now rewrite Hempty. }
    unfold record_in_set, bind.
    rewrite (Hmissing _ _ _ _ _ _ Hrun) by exact Hx.
    eexists. split; reflexivity.
Qed.

Lemma percolator_index_name_new (index : string) :
  ~ (ES_VERSION_0 < 7)%Z ->
  _build_percolator_index_name index = index ++ "-percolators".
Proof.
  intros Hv. unfold _build_percolator_index_name, build_index_name.
  apply Z.ltb_nlt in Hv. now rewrite Hv.
Qed.

(** X17: when the percolator index name built for the hard-wired content
    index is the name [find_sets_for_record] has hard-wired,
    [find_sets_for_record] and [record_in_set] look at the same index and
    agree: every id the first returns is a set the second says the record
    is in; and when the index holds at most 20 documents, a set the record
    is in is among the ids returned. *)
Theorem find_sets_agrees_with_record_in_set (record : json) (w : World) :
  _build_percolator_index_name "rdmrecords-records-record-v4.0.0" =
    "rdmrecords-records-record-v4.0.0-percolators" ->
  forall names w',
    find_sets_for_record record w = Done names w' ->
    (forall name, name ∈ names ->
       exists w2, record_in_set record name w = Done true w2) /\
    (forall w1 ix,
       index_sets w = Done tt w1 ->
       indices w1 !! "rdmrecords-records-record-v4.0.0-percolators" = Some ix ->
       size (ix_docs ix) <= 20 ->
       forall name w2, record_in_set record name w = Done true w2 ->
                       name ∈ names).
Proof.
  intros Hname names w'. unfold find_sets_for_record. unfold bind at 1.
  destruct (percolate_query _ None (Some [record]) None None w)
    as [hits wq|] eqn:Hq; [|discriminate].
  intros [= <- <-].
  destruct (percolate_query_done_inv _ _ _ _ _ _ _ _ Hq) as (w1 & ix & Hrun & Hix).
  rewrite (percolate_query_documents_run _ _ _ _ _ w w1 ix Hrun Hix) in Hq.
  injection Hq as <- _.
  assert (Hin_set : forall name,
    record_in_set record name w =
    Done (0 <? length (take 20 (matching_hits
            [ (fun (_ : string) body => stored_query_matches [record] body);
              (fun id0 (_ : json) => bool_decide (id0 ∈ [name])) ] ix)))%nat
         (log (Search_request "rdmrecords-records-record-v4.0.0-percolators"
                 (create_percolate_query (Some [name]) (Some [record]) None None)
                 (Some 20)) w1)).
  { intros name. unfold record_in_set. rewrite Hname. unfold bind.
    now rewrite (percolate_query_documents_run _ _ _ _ _ w w1 ix Hrun Hix). }
  split.
  - intros name Hin. apply list_elem_of_fmap in Hin as (h & -> & Hin).
    apply elem_of_take_full, matching_hits_elem in Hin as [Hdoc Hf].
    simpl in Hf. rewrite andb_true_r in Hf.
    rewrite Hin_set. eexists. f_equal. apply Nat.ltb_lt.
    assert (Hhit : h ∈ matching_hits
      [ (fun (_ : string) body => stored_query_matches [record] body);
        (fun id0 (_ : json) => bool_decide (id0 ∈ [_id h])) ] ix).
    { apply matching_hits_elem. split; [assumption|]. simpl. rewrite Hf. simpl.
      rewrite andb_true_r. apply bool_decide_eq_true_2. left. }
    destruct (matching_hits _ ix) as [|h0 l]; [inversion Hhit|]. simpl. lia.
  - intros w1' ix' Hrun' Hix' Hsize name w2.
    rewrite Hrun in Hrun'. injection Hrun' as <-.
    rewrite Hix in Hix'. injection Hix' as <-.
    rewrite Hin_set. intros [= Hlen _]. apply Nat.ltb_lt in Hlen. revert Hlen.
    destruct (take 20 (matching_hits
                [ (fun (_ : string) body => stored_query_matches [record] body);
                  (fun id0 (_ : json) => bool_decide (id0 ∈ [name])) ] ix))
      as [|h l] eqn:Htake; [simpl; lia|]. intros _.
    assert (Hhit : h ∈ matching_hits
      [ (fun (_ : string) body => stored_query_matches [record] body);
        (fun id0 (_ : json) => bool_decide (id0 ∈ [name])) ] ix).
    { apply (elem_of_take_full 20). rewrite Htake. left. }
    apply matching_hits_elem in Hhit as [Hdoc Hf]. simpl in Hf.
    apply andb_true_iff in Hf as [Hm Hid]. rewrite andb_true_r in Hid.
    apply bool_decide_eq_true, list_elem_of_singleton in Hid.
    apply list_elem_of_fmap. exists h. split; [auto|].
    rewrite take_all_hits by assumption.
    apply matching_hits_elem. split; [assumption|]. simpl. now rewrite Hm.
Qed.

End PercolateQueryProperties.

(** ** More on the index manager and the legacy query *)

Section IndexManagerProperties.
Context `{Env}.

(** X6: on version 7, when the percolator index is missing and the mapping
    file has its properties, [_create_percolator_mapping] creates the
    index empty, with the properties of the file and the [query] field of
    type percolator on top. *)
Theorem create_percolator_mapping_creates_index (index : string)
    (dt mp : option string) (w : World) (path : string) (top inner props : dict) :
  ES_VERSION_0 = 7%Z ->
  has_index w (_build_percolator_index_name index) = false ->
  (truthy_opt mp = true /\ mp = Some path \/
   truthy_opt mp = false /\ assoc index mappings = Some path) ->
  mapping_file path = JObj top ->
  dict_get "mappings" top = Some (JObj inner) ->
  dict_get "properties" inner = Some (JObj props) ->
  exists w' p,
    _create_percolator_mapping index dt mp w = Done tt w' /\
    has_index w' (_build_percolator_index_name index) = true /\
    (forall j, doc_at w' (_build_percolator_index_name index) j = None) /\
    props_at w' (_build_percolator_index_name index) = Some p /\
    dict_get "query" p = Some (JObj [("type", JStr "percolator")]) /\
    (forall k, k <> "query" -> dict_get k p = dict_get k props).
Proof.
  intros H7 Hx Hpath Hfile Htop Hinner.
  rewrite create_mapping_7 by assumption.
  set (pidx := _build_percolator_index_name index) in *.
  assert (Hres : (if truthy_opt mp then ret (default EmptyString mp)
                  else mappings_subscript index) w = Done path w).
  { destruct Hpath as [[-> ->]|[-> Hassoc]]; [reflexivity|].
    unfold mappings_subscript. now rewrite Hassoc. }
  unfold bind at 1. rewrite Hres.
  unfold indices_exists. run.
  change (has_index (log (Indices_exists pidx) w) pidx) with (has_index w pidx).
  rewrite Hx. simpl.
  assert (Hupd : update_mapping_properties (mapping_file path) =
    inr (JObj (dict_set "mappings"
           (JObj (dict_set "properties"
              (JObj (dict_update props (properties_of PERCOLATOR_MAPPING))) inner))
           top))).
  { unfold update_mapping_properties. rewrite Hfile. simpl.
    rewrite Htop. simpl. now rewrite Hinner. }
  rewrite Hupd. simpl.
  unfold indices_create. run.
  change (has_index (log (Indices_create pidx ?b) (log (Indices_exists pidx) w)) pidx)
    with (has_index w pidx).
  rewrite Hx. rewrite dict_get_set_eq.
  unfold properties_of at 1. simpl. rewrite dict_get_set_eq.
  eexists _, _. split; [reflexivity|].
  split; [rewrite has_index_insert; now destruct (decide (pidx = pidx))|].
  split; [intros j; rewrite doc_at_insert; destruct (decide (pidx = pidx)); [|done];
          apply lookup_empty|].
  split; [rewrite props_at_insert; destruct (decide (pidx = pidx)); [|done];
          reflexivity|].
  simpl. split; [apply dict_get_set_eq|].
  intros k Hk. now apply dict_get_set_ne.
Qed.

(** X7: whatever its outcome, [_create_percolator_mapping] touches no
    document and removes no index; every index other than the derived
    percolator index is exactly as it was; and when it raises, the engine
    is as it was. *)
Theorem create_percolator_mapping_frame (index : string) (dt mp : option string)
    (w : World) :
  let o := _create_percolator_mapping index dt mp w in
  (forall i j, doc_at (world_of o) i j = doc_at w i j) /\
  (forall i, has_index w i = true -> has_index (world_of o) i = true) /\
  (forall i, i <> _build_percolator_index_name index ->
     indices (world_of o) !! i = indices w !! i) /\
  (forall e w', o = Raised e w' -> indices w' = indices w).
Proof.
  pose proof (create_mapping_outcome index dt mp w) as (_ & _ & Hdoc & Hhas & _ & Hraise).
  cbv zeta. split; [assumption|]. split; [assumption|]. split.
  - intros i Hi. now apply create_mapping_other_indices.
  - intros e w' Ho. now apply (Hraise e w').
Qed.

(** X5: [_percolate_query] never raises and never changes the engine, the
    table or the cache; a missing percolator index gives no hit, and on
    versions 6 and 7 at most ten hits come back. *)
Theorem legacy_percolate_query_is_read_only (index doc_type : string)
    (pdt : option string) (document : json) (w : World) :
  exists r w',
    _percolate_query index doc_type pdt document w = Done r w' /\
    indices w' = indices w /\ oaisets w' = oaisets w /\
    current_oaiserver_sets w' = current_oaiserver_sets w /\
    (r = None <-> ~ known_version) /\
    (forall hits, r = Some hits ->
       (has_index w (_build_percolator_index_name index) = false -> hits = []) /\
       ((ES_VERSION_0 = 6 \/ ES_VERSION_0 = 7)%Z -> length hits <= 10) /\
       forall h, h ∈ hits ->
         doc_at w (_build_percolator_index_name index) (_id h) = Some (_source h) /\
         stored_query_matches [document] (_source h) = true).
Proof.
  destruct (legacy_percolate_run index doc_type pdt document w)
    as (r & w' & Hrun & Hidx & Hsets & Hcache & Hunknown & Hknown).
  exists r, w'. split; [assumption|]. split; [assumption|].
  split; [assumption|]. split; [assumption|].
  destruct (decide known_version) as [Hk|Hk].
  - destruct (Hknown Hk) as (hits & -> & Hsound & Hmissing & Hsize & _).
    split; [split; [discriminate|tauto]|].
    intros hits' [= <-]. auto.
  - destruct (Hunknown Hk) as [-> _]. split; [tauto|]. discriminate.
Qed.

(** X19: stripping the prefix undoes prefixing: hits whose ids are the names
    behind ["oaiset-"] give back the names, in order. *)
Theorem percolated_names_round_trip (hits : list hit) (names : list string) :
  map _id hits = map (fun name => "oaiset-" ++ name) names ->
  percolated_names hits = names.
Proof.
  revert names. induction hits as [|h hits IH]; intros [|name names] Hids;
    try discriminate; [reflexivity|].
  injection Hids as Hid Hids.
  change (percolated_names (h :: hits)) with
    ((if startswith (_id h) "oaiset-"
      then [string_drop (String.length "oaiset-") (_id h)] else [])
     ++ percolated_names hits)%list.
  rewrite Hid, startswith_app, string_drop_app, (IH names Hids). reflexivity.
Qed.

End IndexManagerProperties.

(** ** The further properties on the small installation *)

Section MoreRuns.
Import Demo.

Lemma env7_known_version : @known_version env7.
Proof. right. right. right. reflexivity. Qed.

Lemma get_record_sets_leaves_documents_witness :
  doc_at (world_of (@get_record_sets env7 physics_record w_upserted))
    "rdmrecords-records-record-v4.0.0-percolators" "oaiset-a" =
  doc_at w_upserted "rdmrecords-records-record-v4.0.0-percolators" "oaiset-a".
Proof.
  apply (@get_record_sets_leaves_documents env7 physics_record w_upserted).
Defined.

Lemma get_record_sets_sound_witness :
  "a" ∈ @record_sets_fetcher env7 physics_record \/
  exists body q,
    doc_at w_upserted
      (@_build_percolator_index_name env7 (@record_to_index env7 physics_record).1)
      "oaiset-a" = Some body /\
    jget "query" body = Some q /\
    @percolates env7 q (@record_dumps env7 physics_record) = true.
Proof.
  eapply (@get_record_sets_sound env7 physics_record w_upserted _ ["a"]).
  - vm_compute. reflexivity.
  - left.
Defined.

Lemma get_record_sets_unregistered_index_witness :
  exists w',
    @get_record_sets env_unregistered physics_record w_pattern =
    Raised (KeyError "rdmrecords-records-record-v4.0.0") w'.
Proof.
  destruct (@get_record_sets_unregistered_index env_unregistered physics_record
              w_pattern (or_intror eq_refl) eq_refl) as (w' & Hrun & _).
  exists w'. exact Hrun.
Defined.

Lemma get_record_sets_unknown_version_witness :
  exists w', @get_record_sets env8 physics_record w_pattern = Raised TypeError w'.
Proof.
  destruct (@get_record_sets_unknown_version env8 physics_record w_pattern)
    as (w' & Hrun & _).
  - intros [Hv|[Hv|[Hv|Hv]]]; discriminate Hv.
  - exists w'. exact Hrun.
Defined.

Lemma new_percolator_idempotent_witness :
  exists w1 w2,
    @_new_percolator env7 "a" (Some "physics") w_pattern = Done tt w1 /\
    @_new_percolator env7 "a" (Some "physics") w1 = Done tt w2 /\
    indices w2 = indices w1.
Proof.
  apply (@new_percolator_idempotent env7 "a" (Some "physics") w_pattern).
  apply env7_registry_ready.
Defined.

Lemma new_percolator_last_write_wins_witness :
  exists w1 w2,
    @_new_percolator env7 "a" (Some "physics") w_pattern = Done tt w1 /\
    @_new_percolator env7 "a" (Some "chemistry") w1 = Done tt w2 /\
    doc_at w2 (@_build_percolator_index_name env7 rdm) "oaiset-a" =
      Some (JObj [("query", JStr "chemistry")]).
Proof.
  destruct (@new_percolator_last_write_wins env7 "a" (Some "physics")
              (Some "chemistry") w_pattern (env7_registry_ready w_pattern)
              eq_refl eq_refl eq_refl) as (w1 & w2 & Hrun1 & Hrun2 & Hdoc & _).
  exists w1, w2. split; [exact Hrun1|]. split; [exact Hrun2|].
  apply (Hdoc rdm). left.
Defined.

Lemma delete_undoes_new_percolator_witness :
  exists w1 w2,
    @_new_percolator env7 "a" (Some "physics") w_pattern = Done tt w1 /\
    @_delete_percolator env7 "a" None w1 = Done tt w2 /\
    doc_at w2 (@_build_percolator_index_name env7 rdm) "oaiset-a" = None.
Proof.
  destruct (@delete_undoes_new_percolator env7 "a" (Some "physics") None
              w_pattern (env7_registry_ready w_pattern) eq_refl eq_refl)
    as (w1 & w2 & Hrun1 & Hrun2 & Hdoc & _).
  exists w1, w2. split; [exact Hrun1|]. split; [exact Hrun2|].
  apply (Hdoc rdm). left.
Defined.

Lemma registry_keeps_other_sets_witness :
  exists w2,
    @_delete_percolator env7 "b" None w_upserted = Done tt w2 /\
    doc_at w2 "rdmrecords-records-record-v4.0.0-percolators" "oaiset-a" =
    doc_at w_upserted "rdmrecords-records-record-v4.0.0-percolators" "oaiset-a".
Proof.
  destruct (@registry_keeps_other_sets env7 "b" "a" None w_upserted
              (env7_registry_ready w_upserted))
    as (w1 & w2 & _ & Hrun2 & Hkeep).
  - discriminate.
  - exists w2. split; [exact Hrun2|]. apply Hkeep.
Defined.

Lemma deleted_set_is_not_percolated_witness :
  exists w1 names w2,
    @_delete_percolator env7 "a" None w_upserted = Done tt w1 /\
    @get_record_sets env7 physics_record w1 = Done names w2 /\
    ("a" ∈ names -> "a" ∈ @record_sets_fetcher env7 physics_record).
Proof.
  apply (@deleted_set_is_not_percolated env7 "a" None physics_record w_upserted).
  - apply env7_registry_ready.
  - reflexivity.
  - apply env7_known_version.
  - left.
Defined.

Lemma new_set_is_percolated_witness :
  exists w1 names w2,
    @_new_percolator env7 "a" (Some "physics") w_pattern = Done tt w1 /\
    @get_record_sets env7 physics_record w1 = Done names w2 /\ "a" ∈ names.
Proof.
  destruct (@new_set_is_percolated env7 "a" (Some "physics") physics_record
              w_pattern (env7_registry_ready w_pattern) eq_refl eq_refl
              env7_known_version) as (w1 & Hrun1 & Hmatch).
  - left.
  - vm_compute. reflexivity.
  - assert (Hw1 : w1 = w_upserted).
    { unfold w_upserted. now rewrite Hrun1. }
    destruct Hmatch as (names & w2 & Hrun2 & Hin).
    + right. intros ix. rewrite Hw1. vm_compute. intros [= <-]. vm_compute.
      repeat constructor.
    + exists w1, names, w2. auto.
Defined.

Lemma index_sets_keeps_stale_documents_witness :
  doc_at (world_of (@index_sets env7 w_upserted))
    "rdmrecords-records-record-v4.0.0-percolators" "oaiset-a" =
  doc_at w_upserted "rdmrecords-records-record-v4.0.0-percolators" "oaiset-a".
Proof.
  apply (@index_sets_keeps_stale_documents env7 w_upserted
           (world_of (@index_sets env7 w_upserted))).
  - vm_compute. reflexivity.
  - right. vm_compute. intros Hin.
    apply list_elem_of_singleton in Hin. discriminate Hin.
Defined.


Lemma percolate_query_missing_index_witness :
  exists w',
    @record_in_set env7 physics_record "a" (world []) = Raised NotFoundError w'.
Proof.
  destruct (@percolate_query_missing_index env7 "any" None None None None
              physics_record "a" (world [])) as [_ Hempty].
  destruct (Hempty eq_refl) as (w' & Hrun & _); [vm_compute; reflexivity|].
  exists w'. exact Hrun.
Defined.

Lemma find_sets_agrees_with_record_in_set_witness :
  exists w2, @record_in_set env7 physics_record "a" w_pattern = Done true w2.
Proof.
  eapply (@find_sets_agrees_with_record_in_set env7 physics_record w_pattern).
  - reflexivity.
  - vm_compute. reflexivity.
  - left.
Defined.

Lemma create_percolator_mapping_creates_index_witness :
  exists w' p,
    @_create_percolator_mapping env7 rdm None None w_pattern = Done tt w' /\
    props_at w' (@_build_percolator_index_name env7 rdm) = Some p /\
    dict_get "query" p = Some (JObj [("type", JStr "percolator")]) /\
    dict_get "title" p = Some (JObj [("type", JStr "text")]).
Proof.
  destruct (@create_percolator_mapping_creates_index env7 rdm None None w_pattern
              "records/record-v4.0.0.json"
              [("mappings",
                JObj [("properties", JObj [("title", JObj [("type", JStr "text")])])])]
              [("properties", JObj [("title", JObj [("type", JStr "text")])])]
              [("title", JObj [("type", JStr "text")])]
              eq_refl eq_refl (or_intror (conj eq_refl eq_refl))
              eq_refl eq_refl eq_refl)
    as (w' & p & Hrun & _ & _ & Hprops & Hquery & Hothers).
  exists w', p. split; [exact Hrun|]. split; [exact Hprops|].
  split; [exact Hquery|]. rewrite Hothers; [reflexivity|discriminate].
Defined.

Lemma create_percolator_mapping_frame_witness :
  doc_at (world_of (@_create_percolator_mapping env7 rdm None None w_upserted))
    "rdmrecords-records-record-v4.0.0-percolators" "oaiset-a" =
  doc_at w_upserted "rdmrecords-records-record-v4.0.0-percolators" "oaiset-a".
Proof.
  apply (@create_percolator_mapping_frame env7 rdm None None w_upserted).
Defined.

Lemma legacy_percolate_query_is_read_only_witness :
  exists r w',
    @_percolate_query env7 rdm "_doc" None physics_record w_upserted = Done r w' /\
    indices w' = indices w_upserted.
Proof.
  destruct (@legacy_percolate_query_is_read_only env7 rdm "_doc" None
              physics_record w_upserted) as (r & w' & Hrun & Hidx & _).
  exists r, w'. split; [exact Hrun|exact Hidx].
Defined.

Lemma percolated_names_round_trip_witness :
  percolated_names
    [ {| _id := "oaiset-a"; _source := JNull |};
      {| _id := "oaiset-b"; _source := JNull |} ] = ["a"; "b"].
Proof.
  apply percolated_names_round_trip. reflexivity.
Defined.

End MoreRuns.

(** ** Re-indexing before every search *)

Section Reindexing.
Context `{Env}.



End Reindexing.

(** ** The provisos at work on the small installation *)

Section ProvisoRuns.
Import Demo.



(** C5, as stated, fails: the record is bound to ["e"], whose search
    pattern is the empty string, which [_new_percolator] takes for no
    pattern, and to ["curated"], which has none; only ["curated"] is
    yielded. *)
Lemma static_step_skips_empty_pattern :
  exists w',
    @get_record_sets_static env_bound physics_record w_two_static
      = Done ["curated"] w' /\
    @record_sets_fetcher env_bound physics_record = ["e"; "curated"] /\
    oaisets w_two_static =
      [ {| spec := "e"; search_pattern := Some EmptyString |};
        {| spec := "curated"; search_pattern := None |} ] /\
    truthy_opt (Some EmptyString) = false.
Proof.
  eexists. split; [vm_compute; reflexivity|]. repeat split.
Qed.

(** C6, as stated, fails: on version 5 with the content index missing,
    [_delete_percolator] raises the 404 of the mapping request, and the
    delete request is never sent. *)
Lemma delete_percolator_raises_without_content_index :
  exists w',
    @_delete_percolator env5 "a" None (world []) = Raised NotFoundError w' /\
    requests w' =
      [Indices_put_mapping rdm (Some "percolators") PERCOLATOR_MAPPING] /\
    doc_at (world []) (@_build_percolator_index_name env5 rdm) "oaiset-a" = None.
Proof.
  eexists. split; [vm_compute; reflexivity|]. split; reflexivity.
Qed.

(** Without a ready registry [_new_percolator] raises as well and writes
    nothing. *)
Lemma new_percolator_raises_without_content_index :
  exists w',
    @_new_percolator env5 "a" (Some "physics") (world [])
      = Raised NotFoundError w' /\
    requests w' =
      [Indices_put_mapping rdm (Some "percolators") PERCOLATOR_MAPPING] /\
    indices w' = indices (world []).
Proof.
  eexists. split; [vm_compute; reflexivity|]. split; reflexivity.
Qed.

End ProvisoRuns.
